(** * Data-quality audit: response validation, check execution, summary

    A shallow embedding of the generation/execution pipeline of
    [data_quality_audit]:

    - [bedrock_client.py]:  [BedrockClient._parse_response]
    - [redshift_client.py]: [RedshiftClient.format_defect_examples],
      [execute_query]
    - [test_executor.py]:   [TestExecutor.execute_tests],
      [_execute_single_test], [_generate_notes], [get_summary]
    - [dbt_parser.py]:      [DBTParser.list_mart_models]
    - [csv_writer.py]:      [CSVWriter.write_report],
      [write_summary_report]
    - [main.py]:            [main]
    - [config.py]:          [MAX_DEFECT_EXAMPLES], [MART_MODELS]

    Python values decoded from JSON are kept as a tagged union, exceptions
    are values of an error monad, and the warehouse and the clock are an
    explicit world that is threaded through every call.  Calls to [logger]
    have no effect on any returned value and are left out. *)

From Stdlib Require Import ZArith List String Ascii Bool Lia.
From Stdlib Require Import Numbers.DecimalString.
From Stdlib Require Import Sorting.Permutation Sorting.Sorted.
Import ListNotations.

Local Open Scope string_scope.
Local Open Scope list_scope.
Local Open Scope Z_scope.

(* ================================================================= *)
(** ** Python primitives *)

Module Py.

(** Classes of the exceptions that occur; all derive from [Exception],
    so every one of them is caught by [except Exception]. *)
Inductive exn_class : Type :=
| ValueError
| TypeError
| KeyError
| AttributeError
| JSONDecodeError
| DatabaseError.

(** An exception instance; [exn_str e] is what [str(e)] gives. *)
Record exn : Type := Exn { exn_cls : exn_class; exn_str : string }.

(** Outcome of a call that may raise. *)
Inductive result (A : Type) : Type :=
| Ok (a : A)
| Raise (e : exn).
Arguments Ok {A} a.
Arguments Raise {A} e.

Definition bind {A B : Type} (m : result A) (k : A -> result B) : result B :=
  match m with
  | Ok a => k a
  | Raise e => Raise e
  end.

(** Values produced by [json.loads]. A float keeps its literal text. *)
#[warnings="-register-all"]
Inductive json : Type :=
| JNull
| JBool (b : bool)
| JInt (n : Z)
| JFloat (literal : string)
| JStr (s : string)
| JArr (elems : list json)
| JObj (items : list (string * json)).

(** [type(v).__name__] *)
Definition type_name (v : json) : string :=
  match v with
  | JNull => "NoneType"
  | JBool _ => "bool"
  | JInt _ => "int"
  | JFloat _ => "float"
  | JStr _ => "str"
  | JArr _ => "list"
  | JObj _ => "dict"
  end.

(** [v == s] for a string literal [s]. *)
Definition eq_str (v : json) (s : string) : bool :=
  match v with
  | JStr t => String.eqb t s
  | _ => false
  end.

(** [d.get]-style search of a dict's items, kept in insertion order. *)
Fixpoint assoc (k : string) (items : list (string * json)) : option json :=
  match items with
  | [] => None
  | (k', v) :: rest => if String.eqb k' k then Some v else assoc k rest
  end.

(** [str(n)] for an integer. *)
Definition str_of_int (n : Z) : string :=
  NilEmpty.string_of_int (Z.to_int n).

(** [sub in s] for strings. *)
Definition str_contains (sub s : string) : bool :=
  match String.index 0 sub s with
  | Some _ => true
  | None => false
  end.

(** [key in v]: key membership for a dict, element membership for a list,
    substring test for a string; any other value is not iterable. *)
Definition contains (key : string) (v : json) : result bool :=
  match v with
  | JObj items =>
      Ok (match assoc key items with Some _ => true | None => false end)
  | JArr elems => Ok (existsb (fun x => eq_str x key) elems)
  | JStr s => Ok (str_contains key s)
  | _ => Raise (Exn TypeError
                  ("argument of type '" ++ type_name v ++ "' is not iterable"))
  end.

(** [v[key]] for a string key. *)
Definition getitem (v : json) (key : string) : result json :=
  match v with
  | JObj items =>
      match assoc key items with
      | Some x => Ok x
      | None => Raise (Exn KeyError ("'" ++ key ++ "'"))
      end
  | JStr _ => Raise (Exn TypeError "string indices must be integers, not 'str'")
  | JArr _ =>
      Raise (Exn TypeError "list indices must be integers or slices, not str")
  | _ => Raise (Exn TypeError
                  ("'" ++ type_name v ++ "' object is not subscriptable"))
  end.

(** Index of the first occurrence of [c], counting from [i]. *)
Fixpoint find_from (c : ascii) (s : string) (i : nat) : option nat :=
  match s with
  | EmptyString => None
  | String a rest =>
      if Ascii.eqb a c then Some i else find_from c rest (S i)
  end.

(** Index of the last occurrence of [c], counting from [i]. *)
Fixpoint rfind_from (c : ascii) (s : string) (i : nat) : option nat :=
  match s with
  | EmptyString => None
  | String a rest =>
      match rfind_from c rest (S i) with
      | Some j => Some j
      | None => if Ascii.eqb a c then Some i else None
      end
  end.

Definition index_or_minus_one (o : option nat) : Z :=
  match o with
  | Some i => Z.of_nat i
  | None => -1
  end.

(** [s.find(c)] and [s.rfind(c)] for a one-character needle:
    the index, or -1 when [c] does not occur. *)
Definition find (s : string) (c : ascii) : Z :=
  index_or_minus_one (find_from c s 0).

Definition rfind (s : string) (c : ascii) : Z :=
  index_or_minus_one (rfind_from c s 0).

(** [s[lo:hi]] for [0 <= lo] and [0 <= hi <= len(s)]: the characters at
    positions [lo], ..., [hi - 1]; empty when [hi <= lo]. *)
Definition slice (s : string) (lo hi : Z) : string :=
  substring (Z.to_nat lo) (Z.to_nat (hi - lo)) s.

(** [sum(xs)]: left to right, from 0. *)
Definition sum (xs : list Z) : Z := fold_left Z.add xs 0.

End Py.

Import Py.

Notation "x <- m ;; k" := (bind m (fun x => k))
  (at level 61, m at next level, right associativity).

(* ================================================================= *)
(** ** bedrock_client.py: parsing the generator's response *)

Section BedrockClient.

(** [json.loads], applied to the extracted payload.  The payload is either
    empty or starts with '[', so a successful decode is always a list. *)
Variable json_loads : string -> result (list json).

Definition required_fields : list string :=
  ["test_name"; "test_category"; "test_description"; "test_query"; "severity"].

(** [all(field in test for field in fields)]: membership is tested field by
    field, stops at the first miss, and an error of [in] is passed on. *)
Fixpoint all_fields_in (fields : list string) (test : json) : result bool :=
  match fields with
  | [] => Ok true
  | field :: rest =>
      present <- contains field test ;;
      if present then all_fields_in rest test else Ok false
  end.

(** The validation loop, with [validated_tests] as its accumulator. *)
Fixpoint validate_tests (tests validated_tests : list json)
  : result (list json) :=
  match tests with
  | [] => Ok validated_tests
  | test :: rest =>
      complete <- all_fields_in required_fields test ;;
      if complete
      then validate_tests rest (validated_tests ++ [test])
      else validate_tests rest validated_tests
  end.

(** Both handlers of [_parse_response] log and re-raise, so the outcome of
    the guarded block is the outcome of the call. *)
Definition _parse_response (response_text : string) : result (list json) :=
  let json_start := find response_text "["%char in
  let json_end := rfind response_text "]"%char + 1 in
  if (json_start =? -1) || (json_end =? 0)
  then Raise (Exn ValueError "No JSON array found in response")
  else
    let json_str := slice response_text json_start json_end in
    tests <- json_loads json_str ;;
    validate_tests tests [].

End BedrockClient.

(* ================================================================= *)
(** ** config.py *)

Definition MAX_DEFECT_EXAMPLES : nat := 5.

(* ================================================================= *)
(** ** redshift_client.py: rendering defect rows *)

Section RedshiftClient.

(** A column value of a result row, and its rendering by [f"{v}"]. *)
Context {Value : Type}.
Variable format_value : Value -> string.

(** One result row: the items of the row's dict, in column order. *)
Definition row : Type := list (string * Value).

Definition format_row (r : row) : string :=
  String.concat ", "
    (map (fun kv => (fst kv ++ "=" ++ format_value (snd kv))%string) r).

(** [limit] is only ever the default, [MAX_DEFECT_EXAMPLES]. *)
Definition format_defect_examples (query_results : list row) (limit : nat)
  : string :=
  match query_results with
  | [] => ""
  | _ => String.concat "; " (map format_row (firstn limit query_results))
  end.

End RedshiftClient.

(* ================================================================= *)
(** ** test_executor.py *)

(** The dict built by [_execute_single_test]. *)
Record CheckResult : Type := mkCheckResult {
  test_name : json;
  test_category : json;
  test_description : json;
  test_query : json;
  defect_count : Z;
  defect_examples : string;
  status : string;
  severity : json;
  notes : string;
  execution_timestamp : string;
  model_name : string
}.

(** The dict built by [get_summary]. *)
Record AuditSummary : Type := mkAuditSummary {
  total_tests : Z;
  passed : Z;
  failed : Z;
  errors : Z;
  total_defects : Z;
  critical_failures : Z;
  high_failures : Z
}.

Section TestExecutor.

(** The warehouse behind [redshift_client] together with the clock. *)
Context {World : Type} {Value : Type}.

(** [redshift_client.execute_query]: rows or an exception, and the world
    after the call. *)
Variable execute_query : json -> World -> result (list (@row Value)) * World.

(** [datetime.utcnow().strftime("%Y-%m-%d %H:%M:%S UTC")] *)
Variable utcnow : World -> string * World.

Variable format_value : Value -> string.

(** [str.lower] *)
Variable str_lower : string -> string.

(** Computations that read or change the world and may raise. *)
Definition M (A : Type) : Type := World -> result A * World.

Definition ret {A : Type} (a : A) : M A := fun w => (Ok a, w).

Definition lift {A : Type} (r : result A) : M A := fun w => (r, w).

Definition mbind {A B : Type} (m : M A) (k : A -> M B) : M B :=
  fun w =>
    match m w with
    | (Ok a, w') => k a w'
    | (Raise e, w') => (Raise e, w')
    end.

(** [try: body / except Exception as e: handler] *)
Definition try_except {A : Type} (body : M A) (handler : exn -> M A) : M A :=
  fun w =>
    match body w with
    | (Ok a, w') => (Ok a, w')
    | (Raise e, w') => handler e w'
    end.

Definition now : M string :=
  fun w => let (stamp, w') := utcnow w in (Ok stamp, w').

Local Notation "x <~ m ;; k" := (mbind m (fun x => k))
  (at level 61, m at next level, right associativity).

(** [v.lower()]: only a string has the method. *)
Definition lower (v : json) : result string :=
  match v with
  | JStr s => Ok (str_lower s)
  | _ => Raise (Exn AttributeError
                  ("'" ++ type_name v ++ "' object has no attribute 'lower'"))
  end.

Definition _generate_notes (test_def : json) (status : string)
  (defect_count : Z) : result string :=
  test_name <- getitem test_def "test_name" ;;
  test_category <- getitem test_def "test_category" ;;
  if String.eqb status "PASS" then
    description <- getitem test_def "test_description" ;;
    lowered <- lower description ;;
    Ok ("No issues found - " ++ lowered)%string
  else
    let n := str_of_int defect_count in
    if eq_str test_category "Uniqueness" then
      Ok ("Found " ++ n
          ++ " duplicate record(s) - investigate data load process")%string
    else if eq_str test_category "Nullability" then
      Ok ("Found " ++ n ++ " record(s) with unexpected NULL values")%string
    else if eq_str test_category "Referential Integrity" then
      Ok ("Found " ++ n
          ++ " record(s) with referential integrity issues")%string
    else if eq_str test_category "Date Validity" then
      Ok ("Found " ++ n ++ " record(s) with invalid dates")%string
    else if eq_str test_category "Business Logic" then
      Ok ("Found " ++ n ++ " record(s) with business logic violations")%string
    else if eq_str test_category "Value Range" then
      Ok ("Found " ++ n
          ++ " record(s) with values outside expected range")%string
    else if eq_str test_category "Data Consistency" then
      Ok ("Found " ++ n ++ " record(s) with data consistency issues")%string
    else
      Ok ("Found " ++ n ++ " defect(s)")%string.

Definition _execute_single_test (test_def : json) (model_name : string)
  : M CheckResult :=
  test_name <~ lift (getitem test_def "test_name") ;;
  test_query <~ lift (getitem test_def "test_query") ;;
  execution_timestamp <~ now ;;
  try_except
    (query_results <~ execute_query test_query ;;
     let defect_count := Z.of_nat (List.length query_results) in
     let defect_examples :=
       if 0 <? defect_count
       then format_defect_examples format_value query_results
              MAX_DEFECT_EXAMPLES
       else "" in
     let status := if defect_count =? 0 then "PASS" else "FAIL" in
     notes <~ lift (_generate_notes test_def status defect_count) ;;
     test_category <~ lift (getitem test_def "test_category") ;;
     test_description <~ lift (getitem test_def "test_description") ;;
     severity <~ lift (getitem test_def "severity") ;;
     ret (mkCheckResult test_name test_category test_description test_query
            defect_count defect_examples status severity notes
            execution_timestamp model_name))
    (fun e =>
       test_category <~ lift (getitem test_def "test_category") ;;
       test_description <~ lift (getitem test_def "test_description") ;;
       severity <~ lift (getitem test_def "severity") ;;
       ret (mkCheckResult test_name test_category test_description test_query
              (-1) "" "ERROR" severity
              ("Test execution failed: " ++ exn_str e)
              execution_timestamp model_name)).

(** The loop of [execute_tests], with [test_results] as its accumulator. *)
Fixpoint execute_loop (test_definitions : list json) (model_name : string)
  (test_results : list CheckResult) : M (list CheckResult) :=
  match test_definitions with
  | [] => ret test_results
  | test_def :: rest =>
      result <~ _execute_single_test test_def model_name ;;
      execute_loop rest model_name (test_results ++ [result])
  end.

Definition execute_tests (test_definitions : list json) (model_name : string)
  : M (list CheckResult) :=
  execute_loop test_definitions model_name [].

End TestExecutor.

(** [sum(1 for r in test_results if p(r))] *)
Definition count_if (p : CheckResult -> bool) (test_results : list CheckResult)
  : Z :=
  sum (map (fun _ => 1) (filter p test_results)).

Definition get_summary (test_results : list CheckResult) : AuditSummary :=
  let total_tests := Z.of_nat (List.length test_results) in
  let passed := count_if (fun r => String.eqb (status r) "PASS") test_results in
  let failed := count_if (fun r => String.eqb (status r) "FAIL") test_results in
  let errors := count_if (fun r => String.eqb (status r) "ERROR") test_results in
  let total_defects :=
    sum (map defect_count (filter (fun r => 0 <? defect_count r) test_results)) in
  let critical_failures :=
    count_if (fun r => String.eqb (status r) "FAIL"
                       && eq_str (severity r) "CRITICAL") test_results in
  let high_failures :=
    count_if (fun r => String.eqb (status r) "FAIL"
                       && eq_str (severity r) "HIGH") test_results in
  mkAuditSummary total_tests passed failed errors total_defects
    critical_failures high_failures.

(* ================================================================= *)
(** ** Vocabulary of the specification *)

(** A CheckSpec: a JSON object in which [field] is a key ... *)
Definition has_field (field : string) (d : json) : bool :=
  match d with
  | JObj items =>
      match assoc field items with Some _ => true | None => false end
  | _ => false
  end.

(** ... for each of the five required fields. *)
Definition is_check_spec (d : json) : bool :=
  forallb (fun field => has_field field d) required_fields.

Definition is_object (d : json) : bool :=
  match d with
  | JObj _ => true
  | _ => false
  end.

(** The values that [in] cannot be asked about: null, booleans, numbers. *)
Definition is_scalar (d : json) : bool :=
  match d with
  | JNull | JBool _ | JInt _ | JFloat _ => true
  | _ => false
  end.

(** The elements on which the membership tests of the validation loop all
    answer yes. *)
Definition passes_validation (test : json) : bool :=
  match all_fields_in required_fields test with
  | Ok true => true
  | _ => false
  end.

(** [l] is obtained from [l'] by deleting elements. *)
Inductive subsequence {A : Type} : list A -> list A -> Prop :=
| subsequence_nil : subsequence [] []
| subsequence_keep x l l' : subsequence l l' -> subsequence (x :: l) (x :: l')
| subsequence_drop x l l' : subsequence l l' -> subsequence l (x :: l').

(** [i] is the position of the first, resp. last, [c] in [s]. *)
Definition first_index (c : ascii) (s : string) (i : nat) : Prop :=
  String.get i s = Some c /\
  forall k, (k < i)%nat -> String.get k s <> Some c.

Definition last_index (c : ascii) (s : string) (j : nat) : Prop :=
  String.get j s = Some c /\
  forall k, (j < k)%nat -> String.get k s <> Some c.

(** [payload] consists of the characters of [s] at the positions [i], ...,
    [j], both included. *)
Definition spans (s : string) (i j : nat) (payload : string) : Prop :=
  forall k,
    String.get k payload =
    if (i + k <=? j)%nat then String.get (i + k) s else None.

(** The category names as the specification spells them. *)
Definition claimed_categories : list string :=
  [ "Uniqueness"; "Nullability"; "ReferentialIntegrity"; "DateValidity";
    "BusinessLogic"; "ValueRange"; "DataConsistency" ].

(** The note templates as a table from the category literals that
    [_generate_notes] compares with, spaces included, to the text that
    follows the defect count. *)
Definition category_templates : list (string * string) :=
  [ ("Uniqueness", " duplicate record(s) - investigate data load process");
    ("Nullability", " record(s) with unexpected NULL values");
    ("Referential Integrity", " record(s) with referential integrity issues");
    ("Date Validity", " record(s) with invalid dates");
    ("Business Logic", " record(s) with business logic violations");
    ("Value Range", " record(s) with values outside expected range");
    ("Data Consistency", " record(s) with data consistency issues") ].

Fixpoint template_of (category : json) (table : list (string * string))
  : option string :=
  match table with
  | [] => None
  | (name, text) :: rest =>
      if eq_str category name then Some text else template_of category rest
  end.

Definition failure_note (category : json) (n : Z) : string :=
  match template_of category category_templates with
  | Some text => "Found " ++ str_of_int n ++ text
  | None => "Found " ++ str_of_int n ++ " defect(s)"
  end.

(** Counting and summing over a result list, element by element. *)
Fixpoint count_results (p : CheckResult -> bool) (rs : list CheckResult) : Z :=
  match rs with
  | [] => 0
  | r :: rest => (if p r then 1 else 0) + count_results p rest
  end.

Fixpoint positive_defect_sum (rs : list CheckResult) : Z :=
  match rs with
  | [] => 0
  | r :: rest =>
      (if 0 <? defect_count r then defect_count r else 0)
      + positive_defect_sum rest
  end.

Definition is_status (s : string) (r : CheckResult) : bool :=
  String.eqb (status r) s.

Definition is_failure_at (level : string) (r : CheckResult) : bool :=
  String.eqb (status r) "FAIL" && eq_str (severity r) level.

(** How status and defect count go together. *)
Definition classified (r : CheckResult) : Prop :=
  (status r = "PASS" <-> defect_count r = 0) /\
  (status r = "FAIL" <-> defect_count r > 0) /\
  (status r = "ERROR" <-> defect_count r = -1) /\
  (status r = "PASS" \/ status r = "FAIL" \/ status r = "ERROR").

(** The values that [d] holds under the five required keys. *)
Definition field_values (d name category description query level : json)
  : Prop :=
  getitem d "test_name" = Ok name /\
  getitem d "test_category" = Ok category /\
  getitem d "test_description" = Ok description /\
  getitem d "test_query" = Ok query /\
  getitem d "severity" = Ok level.

(** The five fields of [r] are those of [d]. *)
Definition inherits (d : json) (r : CheckResult) : Prop :=
  getitem d "test_name" = Ok (test_name r) /\
  getitem d "test_category" = Ok (test_category r) /\
  getitem d "test_description" = Ok (test_description r) /\
  getitem d "test_query" = Ok (test_query r) /\
  getitem d "severity" = Ok (severity r).

Section Batch.

Context {World : Type} {Value : Type}.
Variable execute_query : json -> World -> result (list (@row Value)) * World.
Variable utcnow : World -> string * World.
Variable format_value : Value -> string.
Variable str_lower : string -> string.
Variable name : string.

(** [produced_in_order w ds rs w']: starting in world [w], the k-th result
    of [rs] is what executing the k-th definition of [ds] returns, one
    after the other, and the world is [w'] in the end. *)
Inductive produced_in_order
  : World -> list json -> list CheckResult -> World -> Prop :=
| produced_nil w : produced_in_order w [] [] w
| produced_cons w d r w1 ds rs w2 :
    _execute_single_test execute_query utcnow format_value str_lower d name w
    = (Ok r, w1) ->
    produced_in_order w1 ds rs w2 ->
    produced_in_order w (d :: ds) (r :: rs) w2.

End Batch.

(* ================================================================= *)
(** ** A concrete warehouse, clock and decoder *)

Module Sample.

(** Lower-casing of the letters A-Z. *)
Definition lower_ascii (a : ascii) : ascii :=
  let n := nat_of_ascii a in
  if ((65 <=? n) && (n <=? 90))%nat then ascii_of_nat (n + 32) else a.

Fixpoint lower_text (s : string) : string :=
  match s with
  | EmptyString => EmptyString
  | String a rest => String (lower_ascii a) (lower_text rest)
  end.

Definition orders_row (id : Z) : @row Z :=
  [("order_id", id); ("total", -1)].

(** The world counts the queries run so far.  One query finds nothing, one
    finds as many rows as written in it, every other one is rejected. *)
Definition execute_query (sql : json) (w : nat)
  : result (list (@row Z)) * nat :=
  match sql with
  | JStr "select none" => (Ok [], S w)
  | JStr "select two" => (Ok (map orders_row [10; 11]), S w)
  | JStr "select seven" =>
      (Ok (map orders_row [1; 2; 3; 4; 5; 6; 7]), S w)
  | _ => (Raise (Exn DatabaseError "syntax error at or near FROM"), S w)
  end.

Definition utcnow (w : nat) : string * nat :=
  ("2024-05-01 12:00:00 UTC", w).

Definition check (name category description sql level : string) : json :=
  JObj [ ("test_name", JStr name);
         ("test_category", JStr category);
         ("test_description", JStr description);
         ("test_query", JStr sql);
         ("severity", JStr level) ].

Definition clean_check : json :=
  check "orders_pk_unique" "Uniqueness" "Order ids are UNIQUE"
    "select none" "CRITICAL".

Definition dirty_check : json :=
  check "orders_total_range" "Value Range" "Totals are not negative"
    "select two" "HIGH".

Definition big_check : json :=
  check "orders_customer_fk" "Referential Integrity"
    "Every order has a customer" "select seven" "CRITICAL".

Definition broken_check : json :=
  check "orders_dates" "Date Validity" "Order dates are valid"
    "select FROM" "LOW".

(** An object without [severity]. *)
Definition incomplete_check : json :=
  JObj [ ("test_name", JStr "orders_nulls");
         ("test_category", JStr "Nullability");
         ("test_description", JStr "No NULL order ids");
         ("test_query", JStr "select none") ].

(** A decoder that knows two payloads. *)
Definition json_loads (payload : string) : result (list json) :=
  if String.eqb payload "[clean, incomplete]"
  then Ok [clean_check; incomplete_check]
  else if String.eqb payload "[null]"
  then Ok [JNull]
  else Raise (Exn JSONDecodeError "Expecting value: line 1 column 1 (char 0)").

Definition run_single (d : json) (w : nat) : result CheckResult * nat :=
  _execute_single_test execute_query utcnow str_of_int lower_text d "orders" w.

Definition run_batch (ds : list json) (w : nat)
  : result (list CheckResult) * nat :=
  execute_tests execute_query utcnow str_of_int lower_text ds "orders" w.

(** The results of auditing [orders] with one clean, one dirty and one
    broken check. *)
Definition orders_results : list CheckResult :=
  match fst (run_batch [clean_check; dirty_check; broken_check] 0) with
  | Ok rs => rs
  | Raise _ => []
  end.

End Sample.

(* ================================================================= *)
(** ** Python dicts with string keys *)

Section Dict.

Context {V : Type}.

(** [items[k]], if the key is there. *)
Fixpoint dict_get (k : string) (items : list (string * V)) : option V :=
  match items with
  | [] => None
  | (k', v) :: rest => if String.eqb k' k then Some v else dict_get k rest
  end.

(** [d[k] = v]: an existing key keeps its place and gets the new value, a
    new key goes to the end. *)
Fixpoint dict_set (k : string) (v : V) (items : list (string * V))
  : list (string * V) :=
  match items with
  | [] => [(k, v)]
  | (k', v') :: rest =>
      if String.eqb k' k
      then (k', v) :: rest
      else (k', v') :: dict_set k v rest
  end.

(** [dict(pairs)]: the pairs are entered one after the other. *)
Definition dict_of (pairs : list (string * V)) : list (string * V) :=
  fold_left (fun d kv => dict_set (fst kv) (snd kv) d) pairs [].

End Dict.

(* ================================================================= *)
(** ** redshift_client.py: defect examples for any limit *)

(** [l[:stop]] for any integer [stop]: a negative [stop] counts from the
    end of the list. *)
Definition slice_to {A : Type} (l : list A) (stop : Z) : list A :=
  if stop <? 0
  then firstn (Z.to_nat (Z.of_nat (List.length l) + stop)) l
  else firstn (Z.to_nat stop) l.

(** [format_defect_examples] with [limit] any Python int, as its signature
    admits. *)
Definition format_defect_examples_limit {Value : Type}
  (format_value : Value -> string) (query_results : list (@row Value))
  (limit : Z) : string :=
  match query_results with
  | [] => ""
  | _ =>
      String.concat "; "
        (map (format_row format_value) (slice_to query_results limit))
  end.

(* ================================================================= *)
(** ** redshift_client.py: running a query *)

Module Redshift.

(** What a psycopg2 cursor holds after [cursor.execute(sql)]: no result set
    ([cursor.description is None]), or the column names of
    [cursor.description] and the tuples of [cursor.fetchall()]. *)
Inductive cursor (Value : Type) : Type :=
| NoResultSet
| ResultSet (columns : list string) (rows : list (list Value)).
Arguments NoResultSet {Value}.
Arguments ResultSet {Value} columns rows.

Section Client.

Context {World : Type} {Value : Type}.

(** Opening a cursor on the connection, executing the statement and
    fetching; any of the three may raise. *)
Variable run_sql : json -> World -> result (cursor Value) * World.

(** The handler of [execute_query] logs and re-raises. *)
Definition execute_query (sql : json) (w : World)
  : result (list (@row Value)) * World :=
  match run_sql sql w with
  | (Ok NoResultSet, w') => (Ok [], w')
  | (Ok (ResultSet columns rows), w') =>
      (Ok (map (fun r => dict_of (combine columns r)) rows), w')
  | (Raise e, w') => (Raise e, w')
  end.

End Client.

End Redshift.

(* ================================================================= *)
(** ** dbt_parser.py: listing the mart models *)

Module DBTParser.

Inductive os_error : Type :=
| FileNotFoundError (msg : string)
| OSError (msg : string).

(** [s.endswith(suffix)] *)
Definition endswith (s suffix : string) : bool :=
  (String.length suffix <=? String.length s)%nat
  && String.eqb
       (substring (String.length s - String.length suffix)
          (String.length suffix) s)
       suffix.

(** [s[:-n]] for a positive [n]: [s] without its last [n] characters,
    empty when [s] is shorter. *)
Definition drop_last (n : nat) (s : string) : string :=
  substring 0 (String.length s - n) s.

(** [sorted(names)]: strings are compared character by character. *)
Fixpoint insert_sorted (x : string) (l : list string) : list string :=
  match l with
  | [] => [x]
  | y :: rest =>
      if String.leb x y then x :: l else y :: insert_sorted x rest
  end.

Definition sorted (l : list string) : list string :=
  fold_right insert_sorted [] l.

(** [path_exists] is [os.path.exists(models_path)] and [listdir] the
    outcome of [os.listdir(models_path)]. *)
Definition list_mart_models (models_path : string) (path_exists : bool)
  (listdir : os_error + list string) : os_error + list string :=
  if negb path_exists
  then inl (FileNotFoundError ("Models path not found: " ++ models_path))
  else
    match listdir with
    | inl e => inl e
    | inr filenames =>
        inr (sorted
               (map (drop_last 4)
                  (filter (fun filename => endswith filename ".sql")
                     filenames)))
    end.

End DBTParser.

(* ================================================================= *)
(** ** csv_writer.py *)

Module CSVWriter.

(** A value handed to the csv writer. *)
Inductive cell : Type :=
| CJson (v : json)
| CInt (n : Z)
| CStr (s : string).

Definition report_fieldnames : list string :=
  [ "test_name"; "test_category"; "test_description"; "test_query";
    "defect_count"; "defect_examples"; "status"; "severity"; "notes";
    "execution_timestamp" ].

Definition summary_fieldnames : list string :=
  [ "model_name"; "total_tests"; "passed"; "failed"; "errors";
    "total_defects"; "critical_failures"; "high_failures" ].

(** The [row] dict of [write_report]. *)
Definition report_row (result : CheckResult) : list (string * cell) :=
  [ ("test_name", CJson (test_name result));
    ("test_category", CJson (test_category result));
    ("test_description", CJson (test_description result));
    ("test_query", CJson (test_query result));
    ("defect_count", CInt (defect_count result));
    ("defect_examples", CStr (defect_examples result));
    ("status", CStr (status result));
    ("severity", CJson (severity result));
    ("notes", CStr (notes result));
    ("execution_timestamp", CStr (execution_timestamp result)) ].

(** The [row] dict of [write_summary_report]. *)
Definition summary_row (model_name : string) (test_results : list CheckResult)
  : list (string * cell) :=
  let total_tests := Z.of_nat (List.length test_results) in
  let passed :=
    sum (map (fun _ => 1)
           (filter (fun r => String.eqb (status r) "PASS") test_results)) in
  let failed :=
    sum (map (fun _ => 1)
           (filter (fun r => String.eqb (status r) "FAIL") test_results)) in
  let errors :=
    sum (map (fun _ => 1)
           (filter (fun r => String.eqb (status r) "ERROR") test_results)) in
  let total_defects :=
    sum (map defect_count
           (filter (fun r => 0 <? defect_count r) test_results)) in
  let critical_failures :=
    sum (map (fun _ => 1)
           (filter (fun r => String.eqb (status r) "FAIL"
                             && eq_str (severity r) "CRITICAL")
              test_results)) in
  let high_failures :=
    sum (map (fun _ => 1)
           (filter (fun r => String.eqb (status r) "FAIL"
                             && eq_str (severity r) "HIGH")
              test_results)) in
  [ ("model_name", CStr model_name);
    ("total_tests", CInt total_tests);
    ("passed", CInt passed);
    ("failed", CInt failed);
    ("errors", CInt errors);
    ("total_defects", CInt total_defects);
    ("critical_failures", CInt critical_failures);
    ("high_failures", CInt high_failures) ].

Section Writer.

Context {World : Type}.

(** [datetime.utcnow().strftime("%Y%m%d_%H%M%S")] *)
Variable utcnow_compact : World -> string * World.

(** [os.path.join] *)
Variable path_join : string -> string -> string.

(** Opening [filepath] for writing and sending the header and then the row
    dicts, one by one, through a [csv.DictWriter] with the given
    fieldnames. *)
Variable write_csv :
  string -> list string -> list (list (string * cell)) -> World ->
  result unit * World.

Variable output_dir : string.

Definition write_report (test_results : list CheckResult)
  (model_name : string) (w : World) : result string * World :=
  let (timestamp, w1) := utcnow_compact w in
  let filename :=
    (model_name ++ "_data_quality_report_" ++ timestamp ++ ".csv")%string in
  let filepath := path_join output_dir filename in
  match write_csv filepath report_fieldnames
          (map report_row test_results) w1 with
  | (Ok _, w2) => (Ok filepath, w2)
  | (Raise e, w2) => (Raise e, w2)
  end.

Definition write_summary_report
  (all_results : list (string * list CheckResult)) (w : World)
  : result string * World :=
  let (timestamp, w1) := utcnow_compact w in
  let filename := ("data_quality_summary_" ++ timestamp ++ ".csv")%string in
  let filepath := path_join output_dir filename in
  match write_csv filepath summary_fieldnames
          (map (fun item => summary_row (fst item) (snd item)) all_results)
          w1 with
  | (Ok _, w2) => (Ok filepath, w2)
  | (Raise e, w2) => (Raise e, w2)
  end.

End Writer.

End CSVWriter.

(* ================================================================= *)
(** ** main.py *)

Definition MART_MODELS : list string :=
  ["customers"; "orders"; "order_items"; "products"; "supplies"; "locations"].

Section Main.

Context {World : Type}.

(** [DBTParser()], [BedrockClient()] and [CSVWriter()] *)
Variable init_clients : World -> result unit * World.

(** [RedshiftClient.__enter__] and [__exit__] *)
Variable connect : World -> result unit * World.
Variable close : World -> result unit * World.

(** [test_connection] catches what it raises and answers [False]. *)
Variable test_connection : World -> bool * World.

(** [audit_model], with the four clients fixed. *)
Variable audit_model : string -> World -> result (list CheckResult) * World.

Variable write_summary_report :
  list (string * list CheckResult) -> World -> result string * World.

(** The loop over [models_to_audit]: a model whose audit raises is skipped. *)
Fixpoint audit_loop (models_to_audit : list string)
  (all_results : list (string * list CheckResult)) (w : World)
  : list (string * list CheckResult) * World :=
  match models_to_audit with
  | [] => (all_results, w)
  | model_name :: rest =>
      match audit_model model_name w with
      | (Ok test_results, w') =>
          audit_loop rest (dict_set model_name test_results all_results) w'
      | (Raise _, w') => audit_loop rest all_results w'
      end
  end.

(** [main(model_names)]; [None] stands for a call without argument.  The
    connection is closed when the [with] block is left, also by the early
    [return]. *)
Definition main (model_names : option (list string)) (w : World)
  : result unit * World :=
  let models_to_audit :=
    match model_names with
    | Some (name :: rest) => name :: rest
    | _ => MART_MODELS
    end in
  match init_clients w with
  | (Raise e, w1) => (Raise e, w1)
  | (Ok _, w1) =>
      match connect w1 with
      | (Raise e, w2) => (Raise e, w2)
      | (Ok _, w2) =>
          let (connected, w3) := test_connection w2 in
          if negb connected
          then close w3
          else
            let (all_results, w4) := audit_loop models_to_audit [] w3 in
            match close w4 with
            | (Raise e, w5) => (Raise e, w5)
            | (Ok _, w5) =>
                if 1 <? Z.of_nat (List.length all_results)
                then
                  match write_summary_report all_results w5 with
                  | (Ok _, w6) => (Ok tt, w6)
                  | (Raise e, w6) => (Raise e, w6)
                  end
                else (Ok tt, w5)
            end
      end
  end.

End Main.

(* ================================================================= *)
(** ** A concrete cursor and concrete audits *)

Module Demo.

(** A cursor on a warehouse that counts the statements it was given. *)
Definition run_sql (sql : json) (w : nat)
  : result (Redshift.cursor Z) * nat :=
  match sql with
  | JStr "select none" =>
      (Ok (Redshift.ResultSet ["order_id"; "total"] []), S w)
  | JStr "select joined" =>
      (Ok (Redshift.ResultSet ["id"; "id"; "total"]
             [[1; 7; 30]; [2; 8; 40]]), S w)
  | JStr "analyze orders" => (Ok Redshift.NoResultSet, S w)
  | _ => (Raise (Exn DatabaseError "syntax error at end of input"), S w)
  end.

Definition maintenance_check : json :=
  Sample.check "orders_analyzed" "Data Consistency"
    "Statistics are fresh" "analyze orders" "LOW".

Definition joined_check : json :=
  Sample.check "orders_join" "Referential Integrity"
    "Orders join their customers" "select joined" "HIGH".

Definition run_single (d : json) (w : nat) : result CheckResult * nat :=
  _execute_single_test (Redshift.execute_query run_sql) Sample.utcnow
    str_of_int Sample.lower_text d "orders" w.

(** Audits that succeed for two models and fail for every other one. *)
Definition audit_model (model_name : string) (w : nat)
  : result (list CheckResult) * nat :=
  if String.eqb model_name "orders" then (Ok Sample.orders_results, S w)
  else if String.eqb model_name "customers" then (Ok [], S w)
  else (Raise (Exn DatabaseError "relation does not exist"), S w).

(** Audits that always succeed. *)
Definition quiet_audit (model_name : string) (w : nat)
  : result (list CheckResult) * nat :=
  (Ok [], S w).

Definition succeed (w : nat) : result unit * nat := (Ok tt, w).

Definition test_connection (w : nat) : bool * nat := (true, w).

Definition write_summary (all_results : list (string * list CheckResult))
  (w : nat) : result string * nat :=
  (Ok "data_quality_summary_20240501_120000.csv", S w).

Definition refuse_summary (all_results : list (string * list CheckResult))
  (w : nat) : result string * nat :=
  (Raise (Exn ValueError "No space left on device"), w).

(** The same check with its category spelled in the two ways. *)
Definition unspaced_check : json :=
  Sample.check "orders_customer_fk" "ReferentialIntegrity"
    "Every order has a customer" "select two" "HIGH".

Definition spaced_check : json :=
  Sample.check "orders_customer_fk" "Referential Integrity"
    "Every order has a customer" "select two" "HIGH".

(** A string and a list that hold the five field names. *)
Definition names_text : json :=
  JStr "test_name test_category test_description test_query severity".

Definition names_list : json :=
  JArr [ JStr "test_name"; JStr "test_category"; JStr "test_description";
         JStr "test_query"; JStr "severity" ].

(** A decoder for a response whose array holds them beside a check. *)
Definition json_loads (payload : string) : result (list json) :=
  if String.eqb payload "[names, clean, list of names]"
  then Ok [names_text; Sample.clean_check; names_list]
  else Raise (Exn JSONDecodeError "Expecting value: line 1 column 1 (char 0)").

End Demo.

(* ================================================================= *)
(** * Properties *)

(** ** Searching and slicing strings *)

Lemma get_head c a s : String.get 0 (String a s) = Some c -> a = c.
Proof. simpl. congruence. Qed.

Lemma eqb_ascii_neq a c : a <> c -> Ascii.eqb a c = false.
Proof. intro H. apply Ascii.eqb_neq. exact H. Qed.

Lemma find_from_none c s :
  (forall k, String.get k s <> Some c) -> forall n, find_from c s n = None.
Proof.
  induction s as [|a s IH]; intros Hno n; simpl.
  - reflexivity.
  - rewrite eqb_ascii_neq.
    + apply IH. intro k. apply (Hno (S k)).
    + intro E. apply (Hno 0%nat). simpl. now rewrite E.
Qed.

Lemma find_from_first c s :
  forall i n, first_index c s i -> find_from c s n = Some (n + i)%nat.
Proof.
  induction s as [|a s IH]; intros i n [Hat Hbefore].
  - destruct i; discriminate.
  - destruct i as [|i]; simpl.
    + apply get_head in Hat. subst a. rewrite Ascii.eqb_refl.
      f_equal. lia.
    + rewrite eqb_ascii_neq.
      * rewrite (IH i (S n)).
        -- f_equal. lia.
        -- split; [exact Hat|].
           intros k Hk. apply (Hbefore (S k)). lia.
      * intro E. apply (Hbefore 0%nat); [lia|]. simpl. now rewrite E.
Qed.

Lemma rfind_from_none c s :
  (forall k, String.get k s <> Some c) -> forall n, rfind_from c s n = None.
Proof.
  induction s as [|a s IH]; intros Hno n; simpl.
  - reflexivity.
  - rewrite IH by (intro k; apply (Hno (S k))).
    rewrite eqb_ascii_neq; [reflexivity|].
    intro E. apply (Hno 0%nat). simpl. now rewrite E.
Qed.

Lemma rfind_from_last c s :
  forall j n, last_index c s j -> rfind_from c s n = Some (n + j)%nat.
Proof.
  induction s as [|a s IH]; intros j n [Hat Hafter].
  - destruct j; discriminate.
  - destruct j as [|j]; simpl.
    + apply get_head in Hat. subst a.
      rewrite rfind_from_none.
      * rewrite Ascii.eqb_refl. f_equal. lia.
      * intro k. apply (Hafter (S k)). lia.
    + rewrite (IH j (S n)).
      * f_equal. lia.
      * split; [exact Hat|].
        intros k Hk. apply (Hafter (S k)). lia.
Qed.

(** What [find] and [rfind] answer is an occurrence of the character. *)
Lemma find_from_sound c s :
  forall i n, find_from c s n = Some i ->
  exists k, i = (n + k)%nat /\ first_index c s k.
Proof.
  induction s as [|a s IH]; intros i n H; simpl in H.
  - discriminate.
  - destruct (Ascii.eqb a c) eqn:E.
    + injection H as <-. exists 0%nat. split; [lia|].
      apply Ascii.eqb_eq in E. subst a. split; [reflexivity|].
      intros k Hk. lia.
    + apply IH in H. destruct H as [k [-> [Hat Hbefore]]].
      exists (S k). split; [lia|]. split; [exact Hat|].
      intros m Hm. destruct m as [|m]; simpl.
      * apply Ascii.eqb_neq in E. congruence.
      * apply Hbefore. lia.
Qed.

Lemma slice_spans s i j :
  spans s i j (slice s (Z.of_nat i) (Z.of_nat j + 1)).
Proof.
  intro k. unfold slice. rewrite Nat2Z.id.
  destruct (i + k <=? j)%nat eqn:E.
  - apply Nat.leb_le in E.
    rewrite substring_correct1 by lia.
    f_equal. lia.
  - apply Nat.leb_gt in E.
    apply substring_correct2. lia.
Qed.

(** Two strings with the same characters at every position are equal. *)
Lemma spans_unique s i j p q : spans s i j p -> spans s i j q -> p = q.
Proof.
  intros Hp Hq. apply get_correct. intro k. now rewrite Hp, Hq.
Qed.

Lemma find_from_absent c s :
  forall n, find_from c s n = None -> forall k, String.get k s <> Some c.
Proof.
  induction s as [|a s IH]; intros n H k; simpl in H.
  - destruct k; discriminate.
  - destruct (Ascii.eqb a c) eqn:E; [discriminate|].
    destruct k as [|k]; simpl.
    + apply Ascii.eqb_neq in E. congruence.
    + apply (IH _ H).
Qed.

Lemma rfind_from_absent c s :
  forall n, rfind_from c s n = None -> forall k, String.get k s <> Some c.
Proof.
  induction s as [|a s IH]; intros n H k; simpl in H.
  - destruct k; discriminate.
  - destruct (rfind_from c s (S n)) eqn:R; [discriminate|].
    destruct (Ascii.eqb a c) eqn:E; [discriminate|].
    destruct k as [|k]; simpl.
    + apply Ascii.eqb_neq in E. congruence.
    + apply (IH _ R).
Qed.

Lemma rfind_from_sound c s :
  forall j n, rfind_from c s n = Some j ->
  exists k, j = (n + k)%nat /\ last_index c s k.
Proof.
  induction s as [|a s IH]; intros j n H; simpl in H.
  - discriminate.
  - destruct (rfind_from c s (S n)) as [j0|] eqn:R.
    + injection H as <-.
      destruct (IH _ _ R) as [k [-> [Hat Hafter]]].
      exists (S k). split; [lia|]. split; [exact Hat|].
      intros m Hm. destruct m as [|m]; [lia|].
      simpl. apply Hafter. lia.
    + destruct (Ascii.eqb a c) eqn:E; [|discriminate].
      injection H as <-. apply Ascii.eqb_eq in E. subst a.
      exists 0%nat. split; [lia|]. split; [reflexivity|].
      intros m Hm. destruct m as [|m]; [lia|].
      simpl. apply (rfind_from_absent _ _ _ R).
Qed.

Lemma first_index_of_find c s i :
  find_from c s 0 = Some i -> first_index c s i.
Proof.
  intro H. destruct (find_from_sound _ _ _ _ H) as [k [-> Hk]]. exact Hk.
Qed.

Lemma last_index_of_rfind c s j :
  rfind_from c s 0 = Some j -> last_index c s j.
Proof.
  intro H. destruct (rfind_from_sound _ _ _ _ H) as [k [-> Hk]]. exact Hk.
Qed.

(** ** Validation of the decoded array *)

Lemma all_fields_in_object fields items :
  all_fields_in fields (JObj items)
  = Ok (forallb (fun field => has_field field (JObj items)) fields).
Proof.
  induction fields as [|field rest IH]; simpl.
  - reflexivity.
  - destruct (assoc field items); simpl.
    + exact IH.
    + reflexivity.
Qed.

Lemma passes_validation_object d :
  is_object d = true -> passes_validation d = is_check_spec d.
Proof.
  destruct d; try discriminate. intros _.
  unfold passes_validation, is_check_spec.
  rewrite all_fields_in_object.
  now destruct (forallb _ _).
Qed.

Lemma all_fields_in_scalar d :
  is_scalar d = true ->
  all_fields_in required_fields d
  = Raise (Exn TypeError
             ("argument of type '" ++ type_name d ++ "' is not iterable")).
Proof.
  destruct d; try discriminate; reflexivity.
Qed.

Lemma validate_tests_cons t rest acc :
  validate_tests (t :: rest) acc
  = (complete <- all_fields_in required_fields t ;;
     if complete
     then validate_tests rest (acc ++ [t])
     else validate_tests rest acc).
Proof. reflexivity. Qed.

Lemma validate_tests_filter tests :
  forall acc validated,
    validate_tests tests acc = Ok validated ->
    validated = acc ++ filter passes_validation tests.
Proof.
  induction tests as [|t rest IH]; intros acc validated H.
  - injection H as <-. simpl. now rewrite app_nil_r.
  - rewrite validate_tests_cons in H.
    cbn [filter]. unfold passes_validation.
    destruct (all_fields_in required_fields t) as [[|]|e]; cbn [bind] in H.
    + apply IH in H. rewrite H, <- app_assoc. reflexivity.
    + apply IH in H. exact H.
    + discriminate.
Qed.

Lemma validate_tests_objects tests :
  Forall (fun t => is_object t = true) tests ->
  forall acc, validate_tests tests acc = Ok (acc ++ filter is_check_spec tests).
Proof.
  induction 1 as [|t rest Ht _ IH]; intros acc.
  - simpl. now rewrite app_nil_r.
  - destruct t; try discriminate.
    rewrite validate_tests_cons, all_fields_in_object.
    cbn [bind filter]. fold (is_check_spec (JObj items)).
    destruct (is_check_spec (JObj items)).
    + rewrite IH, <- app_assoc. reflexivity.
    + apply IH.
Qed.

Lemma validate_tests_scalar before v after :
  Forall (fun t => is_object t = true) before ->
  is_scalar v = true ->
  forall acc,
    validate_tests (before ++ v :: after) acc
    = Raise (Exn TypeError
               ("argument of type '" ++ type_name v ++ "' is not iterable")).
Proof.
  induction 1 as [|t rest Ht _ IH]; intros Hv acc.
  - cbn [app]. rewrite validate_tests_cons, (all_fields_in_scalar _ Hv).
    reflexivity.
  - destruct t; try discriminate.
    cbn [app]. rewrite validate_tests_cons, all_fields_in_object.
    cbn [bind].
    destruct (forallb _ _); apply IH; exact Hv.
Qed.

Lemma subsequence_filter {A : Type} (p : A -> bool) (l : list A) :
  subsequence (filter p l) l.
Proof.
  induction l as [|x l IH]; simpl.
  - constructor.
  - destruct (p x); now constructor.
Qed.

(** A subsequence keeps the relative order: it is the original list with
    some positions struck out. *)
Lemma subsequence_length {A : Type} (l l' : list A) :
  subsequence l l' -> (List.length l <= List.length l')%nat.
Proof.
  induction 1; simpl; lia.
Qed.

Lemma subsequence_In {A : Type} (l l' : list A) :
  subsequence l l' -> forall x, In x l -> In x l'.
Proof.
  induction 1; simpl; intuition.
Qed.

(** ** The response parser *)

Section ParseResponse.

Variable json_loads : string -> result (list json).

Lemma parse_response_brackets text i j :
  first_index "["%char text i ->
  last_index "]"%char text j ->
  _parse_response json_loads text
  = (tests <- json_loads (slice text (Z.of_nat i) (Z.of_nat j + 1)) ;;
     validate_tests tests []).
Proof.
  intros Hi Hj. unfold _parse_response, find, rfind.
  rewrite (find_from_first _ _ _ 0%nat Hi), (rfind_from_last _ _ _ 0%nat Hj).
  cbn [index_or_minus_one Nat.add].
  replace (Z.of_nat i =? -1) with false by (symmetry; apply Z.eqb_neq; lia).
  replace (Z.of_nat j + 1 =? 0) with false by (symmetry; apply Z.eqb_neq; lia).
  reflexivity.
Qed.

Lemma parse_response_returns text validated :
  _parse_response json_loads text = Ok validated ->
  exists payload tests,
    json_loads payload = Ok tests /\ validate_tests tests [] = Ok validated.
Proof.
  unfold _parse_response.
  destruct (_ || _); [discriminate|].
  set (payload := slice _ _ _).
  destruct (json_loads payload) as [tests|e] eqn:E; cbn [bind]; intro H.
  - now exists payload, tests.
  - discriminate.
Qed.

(** C6.  The payload handed to the JSON decoder is the part of the response
    from its first '[' to its last ']', both included, whatever surrounds
    it; and a response in which no '[' occurs is answered with the error
    "No JSON array found in response": the decoder is not asked and no list
    of checks, empty or partial, is returned. *)
Theorem parse_response_payload text :
  (forall i j payload,
      first_index "["%char text i ->
      last_index "]"%char text j ->
      spans text i j payload ->
      _parse_response json_loads text
      = (tests <- json_loads payload ;; validate_tests tests []))
  /\
  ((forall k, String.get k text <> Some "["%char) ->
   _parse_response json_loads text
   = Raise (Exn ValueError "No JSON array found in response")).
Proof.
  split.
  - intros i j payload Hi Hj Hspan.
    rewrite (parse_response_brackets _ _ _ Hi Hj).
    now rewrite (spans_unique _ _ _ _ _ (slice_spans text i j) Hspan).
  - intro Hno. unfold _parse_response, find.
    now rewrite (find_from_none _ _ Hno).
Qed.

(** C5.  The membership test of the validation loop is applied to every
    element of the decoded array, whatever its type.  When the array holds
    a null, a boolean or a number after objects only, the test raises a
    TypeError on that element and the whole call raises: the element is not
    dropped, and the complete objects before it are lost with it. *)
Theorem parse_response_scalar_element_raises text i j before v after :
  first_index "["%char text i ->
  last_index "]"%char text j ->
  json_loads (slice text (Z.of_nat i) (Z.of_nat j + 1))
  = Ok (before ++ v :: after) ->
  Forall (fun t => is_object t = true) before ->
  is_scalar v = true ->
  _parse_response json_loads text
  = Raise (Exn TypeError
             ("argument of type '" ++ type_name v ++ "' is not iterable")).
Proof.
  intros Hi Hj Hdecode Hbefore Hv.
  rewrite (parse_response_brackets _ _ _ Hi Hj), Hdecode. cbn [bind].
  now apply validate_tests_scalar.
Qed.

(** Whenever the parser returns, the list it returns is the decoded array
    with the elements that fail the membership tests struck out: a
    subsequence of the array, in the array's order, nothing moved, repeated
    or added.  On an array of objects the parser does return, and what it
    returns is the array filtered by "has the five required fields". *)
Theorem parse_response_keeps_order text :
  (forall validated,
      _parse_response json_loads text = Ok validated ->
      exists payload tests,
        json_loads payload = Ok tests /\
        validated = filter passes_validation tests /\
        subsequence validated tests)
  /\
  (forall i j tests,
      first_index "["%char text i ->
      last_index "]"%char text j ->
      json_loads (slice text (Z.of_nat i) (Z.of_nat j + 1)) = Ok tests ->
      Forall (fun t => is_object t = true) tests ->
      _parse_response json_loads text = Ok (filter is_check_spec tests) /\
      subsequence (filter is_check_spec tests) tests).
Proof.
  split.
  - intros validated H.
    destruct (parse_response_returns _ _ H) as [payload [tests [Hd Hv]]].
    exists payload, tests. split; [exact Hd|].
    apply validate_tests_filter in Hv. cbn [app] in Hv. subst validated.
    split; [reflexivity | apply subsequence_filter].
  - intros i j tests Hi Hj Hd Hobj. split.
    + rewrite (parse_response_brackets _ _ _ Hi Hj), Hd. cbn [bind].
      now rewrite (validate_tests_objects _ Hobj).
    + apply subsequence_filter.
Qed.

End ParseResponse.

Lemma parse_response_payload_witness :
  _parse_response Sample.json_loads "Sure: [clean, incomplete] done"
  = (tests <- Sample.json_loads "[clean, incomplete]" ;;
     validate_tests tests [])
  /\ _parse_response Sample.json_loads "I cannot help with that"
     = Raise (Exn ValueError "No JSON array found in response").
Proof.
  split.
  - apply (proj1 (parse_response_payload Sample.json_loads
                    "Sure: [clean, incomplete] done") 6%nat 24%nat).
    + apply first_index_of_find. reflexivity.
    + apply last_index_of_rfind. reflexivity.
    + exact (slice_spans "Sure: [clean, incomplete] done" 6 24).
  - apply (proj2 (parse_response_payload Sample.json_loads
                    "I cannot help with that")).
    apply (find_from_absent _ _ 0%nat). reflexivity.
Defined.

Lemma parse_response_scalar_element_raises_witness :
  _parse_response Sample.json_loads "Sure: [null] done"
  = Raise (Exn TypeError "argument of type 'NoneType' is not iterable").
Proof.
  apply (parse_response_scalar_element_raises Sample.json_loads
           "Sure: [null] done" 6%nat 11%nat [] JNull []).
  - apply first_index_of_find. reflexivity.
  - apply last_index_of_rfind. reflexivity.
  - reflexivity.
  - constructor.
  - reflexivity.
Defined.

Lemma parse_response_keeps_order_witness :
  (exists payload tests,
      Sample.json_loads payload = Ok tests /\
      [Sample.clean_check] = filter passes_validation tests /\
      subsequence [Sample.clean_check] tests)
  /\
  _parse_response Sample.json_loads "Sure: [clean, incomplete] done"
  = Ok [Sample.clean_check].
Proof.
  split.
  - apply (proj1 (parse_response_keeps_order Sample.json_loads
                    "Sure: [clean, incomplete] done")).
    reflexivity.
  - apply (proj2 (parse_response_keeps_order Sample.json_loads
                    "Sure: [clean, incomplete] done")
             6%nat 24%nat [Sample.clean_check; Sample.incomplete_check]).
    + apply first_index_of_find. reflexivity.
    + apply last_index_of_rfind. reflexivity.
    + reflexivity.
    + repeat constructor.
Defined.

(** ** Executing one check *)

Lemma check_spec_field_values d :
  is_check_spec d = true ->
  exists name category description query level,
    field_values d name category description query level.
Proof.
  destruct d; try discriminate.
  unfold is_check_spec, field_values, has_field, getitem.
  cbn [forallb required_fields].
  destruct (assoc "test_name" items) as [n|]; [|discriminate].
  destruct (assoc "test_category" items) as [c|]; [|discriminate].
  destruct (assoc "test_description" items) as [ds|]; [|discriminate].
  destruct (assoc "test_query" items) as [q|]; [|discriminate].
  destruct (assoc "severity" items) as [s|]; [|discriminate].
  intros _. now exists n, c, ds, q, s.
Qed.

Lemma getitem_has_field d key v :
  getitem d key = Ok v -> has_field key d = true.
Proof.
  destruct d; try discriminate.
  unfold getitem, has_field. now destruct (assoc key items).
Qed.

Lemma field_values_check_spec d name category description query level :
  field_values d name category description query level ->
  is_check_spec d = true.
Proof.
  intros (H1 & H2 & H3 & H4 & H5).
  unfold is_check_spec. cbn [forallb required_fields].
  rewrite (getitem_has_field _ _ _ H1), (getitem_has_field _ _ _ H2),
    (getitem_has_field _ _ _ H3), (getitem_has_field _ _ _ H4),
    (getitem_has_field _ _ _ H5).
  reflexivity.
Qed.

Section SingleTest.

Context {World : Type} {Value : Type}.
Variable execute_query : json -> World -> result (list (@row Value)) * World.
Variable utcnow : World -> string * World.
Variable format_value : Value -> string.
Variable str_lower : string -> string.

Local Notation "'run'" :=
  (_execute_single_test execute_query utcnow format_value str_lower).

Variables (d name category description query level : json).
Hypothesis Hfields : field_values d name category description query level.

Lemma generate_notes_pass n text :
  description = JStr text ->
  _generate_notes str_lower d "PASS" n
  = Ok ("No issues found - " ++ str_lower text)%string.
Proof.
  destruct Hfields as (H1 & H2 & H3 & _).
  intros ->. unfold _generate_notes. rewrite H1, H2. cbn [bind].
  change (String.eqb "PASS" "PASS") with true. cbv iota.
  rewrite H3. reflexivity.
Qed.

Lemma generate_notes_pass_raises n :
  (forall text, description <> JStr text) ->
  _generate_notes str_lower d "PASS" n
  = Raise (Exn AttributeError
             ("'" ++ type_name description
              ++ "' object has no attribute 'lower'")).
Proof.
  destruct Hfields as (H1 & H2 & H3 & _).
  intros Hno. unfold _generate_notes. rewrite H1, H2. cbn [bind].
  change (String.eqb "PASS" "PASS") with true. cbv iota.
  rewrite H3. cbn [bind].
  destruct description; try reflexivity.
  now destruct (Hno s).
Qed.

Lemma generate_notes_fail n :
  _generate_notes str_lower d "FAIL" n = Ok (failure_note category n).
Proof.
  destruct Hfields as (H1 & H2 & _).
  unfold _generate_notes. rewrite H1, H2. cbn [bind].
  change (String.eqb "FAIL" "PASS") with false. cbv iota zeta.
  unfold failure_note. cbn [template_of category_templates].
  repeat (destruct (eq_str category _); [reflexivity|]).
  reflexivity.
Qed.

Ltac unfold_run :=
  unfold _execute_single_test, mbind, lift, try_except, now, ret.

Lemma run_query_raises model w t w1 e w2 :
  utcnow w = (t, w1) ->
  execute_query query w1 = (Raise e, w2) ->
  run d model w
  = (Ok (mkCheckResult name category description query (-1) "" "ERROR" level
           ("Test execution failed: " ++ exn_str e) t model), w2).
Proof.
  destruct Hfields as (H1 & H2 & H3 & H4 & H5).
  intros Hclock Hquery. unfold_run.
  rewrite H1, H4, Hclock, Hquery, H2, H3, H5. reflexivity.
Qed.

Lemma run_no_rows_text model w t w1 w2 text :
  utcnow w = (t, w1) ->
  execute_query query w1 = (Ok [], w2) ->
  description = JStr text ->
  run d model w
  = (Ok (mkCheckResult name category description query 0 "" "PASS" level
           ("No issues found - " ++ str_lower text) t model), w2).
Proof.
  intros Hclock Hquery Htext.
  pose proof (generate_notes_pass 0 text Htext) as Hnotes.
  destruct Hfields as (H1 & H2 & H3 & H4 & H5).
  unfold_run.
  rewrite H1, H4, Hclock, Hquery.
  cbn [List.length Z.of_nat Z.ltb Z.eqb Z.compare].
  rewrite Hnotes, H2, H3, H5. reflexivity.
Qed.

Lemma run_no_rows_other model w t w1 w2 :
  utcnow w = (t, w1) ->
  execute_query query w1 = (Ok [], w2) ->
  (forall text, description <> JStr text) ->
  run d model w
  = (Ok (mkCheckResult name category description query (-1) "" "ERROR" level
           ("Test execution failed: '" ++ type_name description
            ++ "' object has no attribute 'lower'") t model), w2).
Proof.
  intros Hclock Hquery Hother.
  pose proof (generate_notes_pass_raises 0 Hother) as Hnotes.
  destruct Hfields as (H1 & H2 & H3 & H4 & H5).
  unfold_run.
  rewrite H1, H4, Hclock, Hquery.
  cbn [List.length Z.of_nat Z.ltb Z.eqb Z.compare].
  rewrite Hnotes, H2, H3, H5. reflexivity.
Qed.

Lemma run_rows model w t w1 w2 rows :
  utcnow w = (t, w1) ->
  execute_query query w1 = (Ok rows, w2) ->
  rows <> [] ->
  run d model w
  = (Ok (mkCheckResult name category description query
           (Z.of_nat (List.length rows))
           (format_defect_examples format_value rows MAX_DEFECT_EXAMPLES)
           "FAIL" level
           (failure_note category (Z.of_nat (List.length rows))) t model),
     w2).
Proof.
  intros Hclock Hquery Hrows.
  pose proof (generate_notes_fail (Z.of_nat (List.length rows))) as Hnotes.
  destruct Hfields as (H1 & H2 & H3 & H4 & H5).
  unfold_run.
  rewrite H1, H4, Hclock, Hquery.
  assert (Hpos : 0 < Z.of_nat (List.length rows)).
  { destruct rows; [contradiction | simpl List.length; lia]. }
  replace (0 <? Z.of_nat (List.length rows)) with true
    by (symmetry; apply Z.ltb_lt; exact Hpos).
  replace (Z.of_nat (List.length rows) =? 0) with false
    by (symmetry; apply Z.eqb_neq; lia).
  rewrite Hnotes, H2, H3, H5. reflexivity.
Qed.

End SingleTest.

Section Executor.

Context {World : Type} {Value : Type}.
Variable execute_query : json -> World -> result (list (@row Value)) * World.
Variable utcnow : World -> string * World.
Variable format_value : Value -> string.
Variable str_lower : string -> string.

Local Notation "'run'" :=
  (_execute_single_test execute_query utcnow format_value str_lower).
Local Notation "'run_all'" :=
  (execute_tests execute_query utcnow format_value str_lower).

Lemma classified_error n c ds q s note t model :
  classified (mkCheckResult n c ds q (-1) "" "ERROR" s note t model).
Proof.
  unfold classified. cbn [status defect_count].
  repeat split; intros; try discriminate; try lia; auto.
Qed.

Lemma classified_pass n c ds q s ex note t model :
  classified (mkCheckResult n c ds q 0 ex "PASS" s note t model).
Proof.
  unfold classified. cbn [status defect_count].
  repeat split; intros; try discriminate; try lia; auto.
Qed.

Lemma classified_fail n c ds q s k ex note t model :
  0 < k ->
  classified (mkCheckResult n c ds q k ex "FAIL" s note t model).
Proof.
  intro Hk. unfold classified. cbn [status defect_count].
  repeat split; intros; try discriminate; try lia; auto.
Qed.

Lemma not_text_cases (v : json) :
  (exists text, v = JStr text) \/ (forall text, v <> JStr text).
Proof.
  destruct v; try (right; intros text; discriminate).
  left. now exists s.
Qed.

(** Everything that is known about the result of executing a complete
    check definition. *)
Lemma run_check_spec d model w :
  is_check_spec d = true ->
  exists r w',
    run d model w = (Ok r, w') /\
    inherits d r /\
    classified r /\
    (defect_count r = 0 ->
     exists text,
       test_description r = JStr text /\
       notes r = ("No issues found - " ++ str_lower text)%string) /\
    (defect_count r > 0 ->
     notes r = failure_note (test_category r) (defect_count r)).
Proof.
  intro Hspec.
  destruct (check_spec_field_values _ Hspec) as (n & c & ds & q & s & Hf).
  destruct (utcnow w) as [t w1] eqn:Hclock.
  destruct (execute_query q w1) as [[rows|e] w2] eqn:Hquery.
  - destruct rows as [|row rows].
    + destruct (not_text_cases ds) as [[text ->]|Hother].
      * eexists; eexists.
        split; [eapply run_no_rows_text; eauto|].
        split; [exact Hf|]. split; [apply classified_pass|].
        cbn [defect_count notes test_description]. split.
        -- intros _. now exists text.
        -- lia.
      * eexists; eexists.
        split; [eapply run_no_rows_other; eauto|].
        split; [exact Hf|]. split; [apply classified_error|].
        cbn [defect_count]. split; lia.
    + eexists; eexists.
      split; [eapply run_rows; eauto; discriminate|].
      split; [exact Hf|].
      split; [apply classified_fail; simpl List.length; lia|].
      cbn [defect_count notes test_category]. split.
      * simpl List.length. lia.
      * reflexivity.
  - eexists; eexists.
    split; [eapply run_query_raises; eauto|].
    split; [exact Hf|]. split; [apply classified_error|].
    cbn [defect_count]. split; lia.
Qed.

(** A call that returns has found all five fields in its argument. *)
Lemma run_returns_check_spec d model w r w' :
  run d model w = (Ok r, w') -> is_check_spec d = true.
Proof.
  unfold _execute_single_test, mbind, lift, try_except, now, ret.
  destruct (getitem d "test_name") as [n|] eqn:H1; [|discriminate].
  destruct (getitem d "test_query") as [q|] eqn:H4; [|discriminate].
  destruct (utcnow w) as [t w1].
  destruct (execute_query q w1) as [[rows|e] w2].
  - destruct (_generate_notes _ _ _ _) as [note|e].
    + destruct (getitem d "test_category") as [c|] eqn:H2; [|discriminate].
      destruct (getitem d "test_description") as [ds|] eqn:H3;
        [|discriminate].
      destruct (getitem d "severity") as [s|] eqn:H5; [|discriminate].
      intros _. now apply (field_values_check_spec d n c ds q s).
    + destruct (getitem d "test_category") as [c|] eqn:H2; [|discriminate].
      destruct (getitem d "test_description") as [ds|] eqn:H3;
        [|discriminate].
      destruct (getitem d "severity") as [s|] eqn:H5; [|discriminate].
      intros _. now apply (field_values_check_spec d n c ds q s).
  - destruct (getitem d "test_category") as [c|] eqn:H2; [|discriminate].
    destruct (getitem d "test_description") as [ds|] eqn:H3; [|discriminate].
    destruct (getitem d "severity") as [s|] eqn:H5; [|discriminate].
    intros _. now apply (field_values_check_spec d n c ds q s).
Qed.

(** ** Executing a batch *)

Local Notation "'in_order'" :=
  (produced_in_order execute_query utcnow format_value str_lower).

Lemma execute_loop_produced ds model :
  forall acc w rs w',
    execute_loop execute_query utcnow format_value str_lower ds model acc w
    = (Ok rs, w') ->
    exists rs0, rs = acc ++ rs0 /\ in_order model w ds rs0 w'.
Proof.
  induction ds as [|d ds IH]; intros acc w rs w' H.
  - injection H as <- <-. exists []. split.
    + now rewrite app_nil_r.
    + constructor.
  - cbn [execute_loop] in H. unfold mbind in H.
    destruct (run d model w) as [[r|e] w1] eqn:Hrun; [|discriminate].
    destruct (IH _ _ _ _ H) as [rs1 [-> Hrest]].
    exists (r :: rs1). split.
    + now rewrite <- app_assoc.
    + econstructor; eassumption.
Qed.

Lemma produced_execute_loop model w ds rs w' :
  in_order model w ds rs w' ->
  forall acc,
    execute_loop execute_query utcnow format_value str_lower ds model acc w
    = (Ok (acc ++ rs), w').
Proof.
  induction 1 as [w|w d r w1 ds rs w2 Hrun _ IH]; intros acc.
  - cbn [execute_loop]. unfold ret. now rewrite app_nil_r.
  - cbn [execute_loop]. unfold mbind. rewrite Hrun, IH.
    now rewrite <- app_assoc.
Qed.

Lemma produced_length model w ds rs w' :
  in_order model w ds rs w' -> List.length rs = List.length ds.
Proof.
  induction 1; simpl; congruence.
Qed.

(** C1.  Executing a list of N check definitions, each an object with the
    five required fields, returns, whatever the warehouse answers, and what
    it returns is a list of exactly N results: the k-th result is the one
    that executing the k-th definition yields, in the order of the
    definitions, it carries that definition's fields, and its status is
    PASS, FAIL or ERROR. *)
Theorem execute_tests_one_result_per_check ds model w :
  Forall (fun d => is_check_spec d = true) ds ->
  exists rs w',
    run_all ds model w = (Ok rs, w') /\
    List.length rs = List.length ds /\
    in_order model w ds rs w' /\
    Forall2 inherits ds rs /\
    Forall (fun r => status r = "PASS" \/ status r = "FAIL"
                     \/ status r = "ERROR") rs.
Proof.
  intro Hall. revert w.
  induction Hall as [|d ds Hd _ IH]; intro w.
  - exists [], w. repeat split; constructor.
  - destruct (run_check_spec d model w Hd)
      as (r & w1 & Hrun & Hinh & (_ & _ & _ & Hstatus) & _).
    destruct (IH w1) as (rs & w' & _ & Hlen & Hord & Hinhs & Hsts).
    assert (Hboth : in_order model w (d :: ds) (r :: rs) w')
      by (econstructor; eassumption).
    exists (r :: rs), w'. split.
    + unfold execute_tests.
      now rewrite (produced_execute_loop _ _ _ _ _ Hboth).
    + split; [simpl; congruence|].
      split; [exact Hboth|].
      split; now constructor.
Qed.

(** C2.  In every result that the executor returns, for a single check or
    within a batch, the status is PASS exactly when the defect count is 0,
    FAIL exactly when it is positive and ERROR exactly when it is -1, and
    the status is one of these three: no other pairing occurs. *)
Theorem status_matches_defect_count model w w' :
  (forall d r,
      run d model w = (Ok r, w') ->
      (status r = "PASS" <-> defect_count r = 0) /\
      (status r = "FAIL" <-> defect_count r > 0) /\
      (status r = "ERROR" <-> defect_count r = -1) /\
      (status r = "PASS" \/ status r = "FAIL" \/ status r = "ERROR"))
  /\
  (forall ds rs,
      run_all ds model w = (Ok rs, w') ->
      Forall classified rs).
Proof.
  assert (Hone : forall d r w0 w1, run d model w0 = (Ok r, w1) -> classified r).
  { intros d r w0 w1 Hrun.
    pose proof (run_returns_check_spec _ _ _ _ _ Hrun) as Hspec.
    destruct (run_check_spec d model w0 Hspec) as (r0 & w2 & Hrun0 & _ & Hc & _).
    rewrite Hrun in Hrun0. now injection Hrun0 as <- <-. }
  split.
  - intros d r Hrun. exact (Hone _ _ _ _ Hrun).
  - intros ds rs Hall.
    destruct (execute_loop_produced _ _ _ _ _ _ Hall) as [rs0 [-> Hord]].
    cbn [app]. clear Hall.
    induction Hord; constructor; eauto.
Qed.

(** C3.  Executing a check definition with the five required fields never
    raises: it returns a result.  When the query of the check raises, that
    result has status ERROR, defect count -1, no defect examples, and as
    notes the text "Test execution failed: " followed by the message of
    the exception. *)
Theorem failing_query_gives_error_result d model w :
  is_check_spec d = true ->
  (exists r w', run d model w = (Ok r, w')) /\
  (forall q t w1 e w2,
      getitem d "test_query" = Ok q ->
      utcnow w = (t, w1) ->
      execute_query q w1 = (Raise e, w2) ->
      exists r,
        run d model w = (Ok r, w2) /\
        status r = "ERROR" /\
        defect_count r = -1 /\
        defect_examples r = "" /\
        notes r = ("Test execution failed: " ++ exn_str e)%string).
Proof.
  intro Hspec. split.
  - destruct (run_check_spec d model w Hspec) as (r & w' & Hrun & _).
    now exists r, w'.
  - intros q t w1 e w2 Hq Hclock Hquery.
    destruct (check_spec_field_values _ Hspec) as (n & c & ds & q0 & s & Hf).
    assert (q0 = q) as ->.
    { destruct Hf as (_ & _ & _ & H4 & _). congruence. }
    eexists. split.
    + eapply run_query_raises; eassumption.
    + repeat split.
Qed.

(** ** Defect examples and notes *)

Lemma firstn_min {A : Type} (n : nat) (l : list A) :
  firstn (Nat.min (List.length l) n) l = firstn n l.
Proof.
  destruct (Nat.le_ge_cases (List.length l) n) as [H|H].
  - rewrite Nat.min_l by exact H.
    now rewrite firstn_all, firstn_all2.
  - now rewrite Nat.min_r.
Qed.

Lemma eq_str_true v s : eq_str v s = true -> v = JStr s.
Proof.
  destruct v; try discriminate. simpl. intro H.
  apply String.eqb_eq in H. now subst.
Qed.

Lemma template_of_listed cat text :
  In (cat, text) category_templates ->
  template_of (JStr cat) category_templates = Some text.
Proof.
  unfold category_templates. intro H.
  repeat (destruct H as [H|H]; [injection H as <- <-; reflexivity|]).
  contradiction.
Qed.

Lemma template_of_unlisted c :
  (forall cat text, In (cat, text) category_templates -> c <> JStr cat) ->
  template_of c category_templates = None.
Proof.
  intro Hout.
  assert (Hall : forall table,
             incl table category_templates -> template_of c table = None).
  { induction table as [|[cat text] table IH]; intro Hincl.
    - reflexivity.
    - cbn [template_of].
      destruct (eq_str c cat) eqn:E.
      + apply eq_str_true in E.
        destruct (Hout cat text (Hincl _ (or_introl eq_refl)) E).
      + apply IH. intros x Hx. apply Hincl. now right. }
  apply Hall, incl_refl.
Qed.

(** C7.  When the query of a check with the five required fields returns k
    rows and k is positive, the result has status FAIL and defect count k,
    and its defect examples are the first min(k, 5) rows, 5 being
    MAX_DEFECT_EXAMPLES: each row written as its key=value pairs joined by
    ", ", the rows joined by "; ".  So of 7 returned rows all 7 are counted
    and 5 are rendered. *)
Theorem failing_rows_are_counted_and_capped d model w q t w1 rows w2 :
  is_check_spec d = true ->
  getitem d "test_query" = Ok q ->
  utcnow w = (t, w1) ->
  execute_query q w1 = (Ok rows, w2) ->
  (0 < List.length rows)%nat ->
  let shown := firstn (Nat.min (List.length rows) 5) rows in
  exists r,
    run d model w = (Ok r, w2) /\
    status r = "FAIL" /\
    defect_count r = Z.of_nat (List.length rows) /\
    defect_examples r
    = String.concat "; "
        (map (fun row =>
                String.concat ", "
                  (map (fun kv => (fst kv ++ "=" ++ format_value (snd kv))%string)
                     row))
           shown) /\
    List.length shown = Nat.min (List.length rows) 5 /\
    MAX_DEFECT_EXAMPLES = 5%nat.
Proof.
  intros Hspec Hq Hclock Hquery Hk shown.
  destruct (check_spec_field_values _ Hspec) as (n & c & ds & q0 & s & Hf).
  assert (q0 = q) as ->.
  { destruct Hf as (_ & _ & _ & H4 & _). congruence. }
  assert (Hrows : rows <> []) by (intros ->; simpl in Hk; lia).
  eexists. split; [eapply run_rows; eassumption|].
  cbn [status defect_count defect_examples].
  repeat split.
  - unfold shown. rewrite firstn_min.
    unfold format_defect_examples, MAX_DEFECT_EXAMPLES.
    destruct rows; [contradiction | reflexivity].
  - unfold shown. rewrite length_firstn. lia.
Qed.

(** C8.  When the query of a check with the five required fields
    returns rows: with no rows and a text as description the result is
    PASS with defect count 0 and notes "No issues found - " followed by
    that text in lower case; with N > 0 rows the result is FAIL with defect
    count N and notes "Found N" followed by the text that the table gives
    for the category of the check, the table being keyed by the literals
    Uniqueness, Nullability, Referential Integrity, Date Validity, Business
    Logic, Value Range and Data Consistency, and notes "Found N defect(s)"
    for every category that is none of these literals. *)
Theorem notes_follow_rows_and_category d model w q t w1 rows w2 :
  is_check_spec d = true ->
  getitem d "test_query" = Ok q ->
  utcnow w = (t, w1) ->
  execute_query q w1 = (Ok rows, w2) ->
  (rows = [] ->
   forall text,
     getitem d "test_description" = Ok (JStr text) ->
     exists r,
       run d model w = (Ok r, w2) /\
       status r = "PASS" /\
       defect_count r = 0 /\
       notes r = ("No issues found - " ++ str_lower text)%string)
  /\
  (rows <> [] ->
   exists r category,
     run d model w = (Ok r, w2) /\
     status r = "FAIL" /\
     defect_count r = Z.of_nat (List.length rows) /\
     getitem d "test_category" = Ok category /\
     (forall cat text,
         In (cat, text) category_templates ->
         category = JStr cat ->
         notes r
         = ("Found " ++ str_of_int (Z.of_nat (List.length rows)) ++ text)
             %string) /\
     ((forall cat text,
          In (cat, text) category_templates -> category <> JStr cat) ->
      notes r
      = ("Found " ++ str_of_int (Z.of_nat (List.length rows))
         ++ " defect(s)")%string)).
Proof.
  intros Hspec Hq Hclock Hquery.
  destruct (check_spec_field_values _ Hspec) as (n & c & ds & q0 & s & Hf).
  assert (q0 = q) as ->.
  { destruct Hf as (_ & _ & _ & H4 & _). congruence. }
  split.
  - intros -> text Hds.
    assert (ds = JStr text) as ->.
    { destruct Hf as (_ & _ & H3 & _). congruence. }
    eexists. split.
    + eapply run_no_rows_text; eauto.
    + repeat split.
  - intro Hrows. eexists. exists c. split.
    + eapply run_rows; eauto.
    + cbn [status defect_count notes].
      split; [reflexivity|]. split; [reflexivity|].
      split; [exact (proj1 (proj2 Hf))|].
      unfold failure_note. split.
      * intros cat text Hin ->. now rewrite (template_of_listed _ _ Hin).
      * intro Hout. now rewrite (template_of_unlisted _ Hout).
Qed.

(** C9.  The result of executing a check definition with the five required
    fields carries the name, category, description, query and severity of
    that definition, unchanged, whether the query returned rows or raised. *)
Theorem result_inherits_check_fields d model w :
  is_check_spec d = true ->
  exists r w',
    run d model w = (Ok r, w') /\
    getitem d "test_name" = Ok (test_name r) /\
    getitem d "test_category" = Ok (test_category r) /\
    getitem d "test_description" = Ok (test_description r) /\
    getitem d "test_query" = Ok (test_query r) /\
    getitem d "severity" = Ok (severity r).
Proof.
  intro Hspec.
  destruct (run_check_spec d model w Hspec) as (r & w' & Hrun & Hinh & _).
  exists r, w'. split; [exact Hrun | exact Hinh].
Qed.

End Executor.

(** ** The executor on the sample warehouse *)

Lemma execute_tests_one_result_per_check_witness :
  exists rs w',
    Sample.run_batch
      [Sample.clean_check; Sample.dirty_check; Sample.broken_check] 0%nat
    = (Ok rs, w') /\
    List.length rs = 3%nat /\
    produced_in_order Sample.execute_query Sample.utcnow str_of_int
      Sample.lower_text "orders" 0%nat
      [Sample.clean_check; Sample.dirty_check; Sample.broken_check] rs w' /\
    Forall2 inherits
      [Sample.clean_check; Sample.dirty_check; Sample.broken_check] rs /\
    Forall (fun r => status r = "PASS" \/ status r = "FAIL"
                     \/ status r = "ERROR") rs.
Proof.
  apply (execute_tests_one_result_per_check Sample.execute_query Sample.utcnow
           str_of_int Sample.lower_text
           [Sample.clean_check; Sample.dirty_check; Sample.broken_check]
           "orders" 0%nat).
  repeat constructor.
Defined.

Lemma status_matches_defect_count_witness :
  (exists r,
      Sample.run_single Sample.dirty_check 0%nat = (Ok r, 1%nat) /\
      (status r = "PASS" <-> defect_count r = 0) /\
      (status r = "FAIL" <-> defect_count r > 0) /\
      (status r = "ERROR" <-> defect_count r = -1) /\
      (status r = "PASS" \/ status r = "FAIL" \/ status r = "ERROR"))
  /\ Forall classified Sample.orders_results.
Proof.
  split.
  - eexists. split; [reflexivity|].
    apply (proj1 (status_matches_defect_count Sample.execute_query
                    Sample.utcnow str_of_int Sample.lower_text
                    "orders" 0%nat 1%nat) Sample.dirty_check).
    reflexivity.
  - apply (proj2 (status_matches_defect_count Sample.execute_query
                    Sample.utcnow str_of_int Sample.lower_text
                    "orders" 0%nat 3%nat)
             [Sample.clean_check; Sample.dirty_check; Sample.broken_check]).
    reflexivity.
Defined.

Lemma failing_query_gives_error_result_witness :
  (exists r w', Sample.run_single Sample.broken_check 0%nat = (Ok r, w'))
  /\
  (exists r,
      Sample.run_single Sample.broken_check 0%nat = (Ok r, 1%nat) /\
      status r = "ERROR" /\
      defect_count r = -1 /\
      defect_examples r = "" /\
      notes r = "Test execution failed: syntax error at or near FROM").
Proof.
  pose proof (failing_query_gives_error_result Sample.execute_query
                Sample.utcnow str_of_int Sample.lower_text
                Sample.broken_check "orders" 0%nat eq_refl) as [Hret Herr].
  split; [exact Hret|].
  apply (Herr (JStr "select FROM") "2024-05-01 12:00:00 UTC" 0%nat
           (Exn DatabaseError "syntax error at or near FROM") 1%nat);
    reflexivity.
Defined.

Lemma failing_rows_are_counted_and_capped_witness :
  exists r,
    Sample.run_single Sample.big_check 0%nat = (Ok r, 1%nat) /\
    status r = "FAIL" /\
    defect_count r = 7 /\
    defect_examples r
    = "order_id=1, total=-1; order_id=2, total=-1; order_id=3, total=-1; order_id=4, total=-1; order_id=5, total=-1" /\
    List.length
      (firstn 5 (map Sample.orders_row [1; 2; 3; 4; 5; 6; 7])) = 5%nat /\
    MAX_DEFECT_EXAMPLES = 5%nat.
Proof.
  apply (failing_rows_are_counted_and_capped Sample.execute_query
           Sample.utcnow str_of_int Sample.lower_text
           Sample.big_check "orders" 0%nat (JStr "select seven")
           "2024-05-01 12:00:00 UTC" 0%nat
           (map Sample.orders_row [1; 2; 3; 4; 5; 6; 7]) 1%nat).
  - reflexivity.
  - reflexivity.
  - reflexivity.
  - reflexivity.
  - simpl. lia.
Defined.

Lemma notes_follow_rows_and_category_witness :
  (exists r,
      Sample.run_single Sample.clean_check 0%nat = (Ok r, 1%nat) /\
      status r = "PASS" /\
      defect_count r = 0 /\
      notes r = "No issues found - order ids are unique")
  /\
  (exists r category,
      Sample.run_single Sample.dirty_check 0%nat = (Ok r, 1%nat) /\
      status r = "FAIL" /\
      defect_count r = 2 /\
      getitem Sample.dirty_check "test_category" = Ok category /\
      (forall cat text,
          In (cat, text) category_templates ->
          category = JStr cat ->
          notes r = ("Found " ++ str_of_int 2 ++ text)%string) /\
      ((forall cat text,
           In (cat, text) category_templates -> category <> JStr cat) ->
       notes r = ("Found " ++ str_of_int 2 ++ " defect(s)")%string)).
Proof.
  split.
  - apply (proj1 (notes_follow_rows_and_category Sample.execute_query
                    Sample.utcnow str_of_int Sample.lower_text
                    Sample.clean_check "orders" 0%nat (JStr "select none")
                    "2024-05-01 12:00:00 UTC" 0%nat [] 1%nat
                    eq_refl eq_refl eq_refl eq_refl)
             eq_refl "Order ids are UNIQUE" eq_refl).
  - apply (proj2 (notes_follow_rows_and_category Sample.execute_query
                    Sample.utcnow str_of_int Sample.lower_text
                    Sample.dirty_check "orders" 0%nat (JStr "select two")
                    "2024-05-01 12:00:00 UTC" 0%nat
                    (map Sample.orders_row [10; 11]) 1%nat
                    eq_refl eq_refl eq_refl eq_refl)).
    discriminate.
Defined.

(** C8, as the claim spells the categories.  ReferentialIntegrity is one of
    the claim's seven names, and a failing check of that category gets the
    generic notes; Referential Integrity is none of the claim's names, and
    a failing check of that category does not get the generic notes. *)
Lemma notes_of_claimed_categories_counterexample :
  (In "ReferentialIntegrity"%string claimed_categories /\
   exists r,
     Sample.run_single Demo.unspaced_check 0%nat = (Ok r, 1%nat) /\
     defect_count r = 2 /\
     notes r = "Found 2 defect(s)")
  /\
  (~ In "Referential Integrity"%string claimed_categories /\
   exists r,
     Sample.run_single Demo.spaced_check 0%nat = (Ok r, 1%nat) /\
     defect_count r = 2 /\
     notes r = "Found 2 record(s) with referential integrity issues" /\
     notes r <> "Found 2 defect(s)").
Proof.
  split.
  - split; [cbn; tauto|].
    eexists. split; [reflexivity|]. split; reflexivity.
  - split.
    + cbn. intuition discriminate.
    + eexists. split; [reflexivity|].
      split; [reflexivity|]. split; [reflexivity | discriminate].
Defined.

Lemma result_inherits_check_fields_witness :
  exists r w',
    Sample.run_single Sample.broken_check 0%nat = (Ok r, w') /\
    getitem Sample.broken_check "test_name" = Ok (test_name r) /\
    getitem Sample.broken_check "test_category" = Ok (test_category r) /\
    getitem Sample.broken_check "test_description"
    = Ok (test_description r) /\
    getitem Sample.broken_check "test_query" = Ok (test_query r) /\
    getitem Sample.broken_check "severity" = Ok (severity r).
Proof.
  apply (result_inherits_check_fields Sample.execute_query Sample.utcnow
           str_of_int Sample.lower_text Sample.broken_check "orders" 0%nat).
  reflexivity.
Defined.

(** ** The summary *)

Lemma fold_add_from xs : forall a, fold_left Z.add xs a = a + sum xs.
Proof.
  unfold sum. induction xs as [|x xs IH]; intro a; simpl.
  - lia.
  - rewrite (IH (a + x)), (IH x). lia.
Qed.

Lemma sum_cons x xs : sum (x :: xs) = x + sum xs.
Proof. unfold sum at 1. simpl. apply fold_add_from. Qed.

Lemma count_if_count_results p rs : count_if p rs = count_results p rs.
Proof.
  unfold count_if. induction rs as [|r rs IH]; simpl.
  - reflexivity.
  - destruct (p r); simpl map.
    + rewrite sum_cons, IH. reflexivity.
    + rewrite IH. reflexivity.
Qed.

Lemma sum_positive_defects rs :
  sum (map defect_count (filter (fun r => 0 <? defect_count r) rs))
  = positive_defect_sum rs.
Proof.
  induction rs as [|r rs IH]; simpl.
  - reflexivity.
  - destruct (0 <? defect_count r); simpl map.
    + rewrite sum_cons, IH. reflexivity.
    + rewrite IH. reflexivity.
Qed.

Lemma positive_defect_sum_app rs rs' :
  positive_defect_sum (rs ++ rs')
  = positive_defect_sum rs + positive_defect_sum rs'.
Proof.
  induction rs as [|r rs IH]; simpl.
  - reflexivity.
  - rewrite IH. lia.
Qed.

(** C4.  For every list of results the summary has: as total_tests the
    length of the list; as passed, failed and errors the number of results
    with status PASS, FAIL and ERROR; as total_defects the sum of the
    defect counts that are positive, so that a result with defect count -1,
    wherever it stands in the list, adds nothing to it; and as
    critical_failures and high_failures the number of results with status
    FAIL and severity CRITICAL, resp. HIGH. *)
Theorem get_summary_counts rs :
  total_tests (get_summary rs) = Z.of_nat (List.length rs) /\
  passed (get_summary rs) = count_results (is_status "PASS") rs /\
  failed (get_summary rs) = count_results (is_status "FAIL") rs /\
  errors (get_summary rs) = count_results (is_status "ERROR") rs /\
  total_defects (get_summary rs) = positive_defect_sum rs /\
  critical_failures (get_summary rs)
  = count_results (is_failure_at "CRITICAL") rs /\
  high_failures (get_summary rs) = count_results (is_failure_at "HIGH") rs /\
  (forall before r after,
      rs = before ++ r :: after ->
      defect_count r = -1 ->
      total_defects (get_summary rs)
      = total_defects (get_summary (before ++ after))).
Proof.
  unfold get_summary.
  cbn [total_tests passed failed errors total_defects critical_failures
         high_failures].
  rewrite !count_if_count_results, sum_positive_defects.
  repeat split.
  intros before r after -> Hr.
  rewrite sum_positive_defects, !positive_defect_sum_app.
  cbn [positive_defect_sum]. rewrite Hr. simpl. lia.
Qed.

Lemma get_summary_counts_witness :
  total_tests (get_summary Sample.orders_results) = 3 /\
  passed (get_summary Sample.orders_results) = 1 /\
  failed (get_summary Sample.orders_results) = 1 /\
  errors (get_summary Sample.orders_results) = 1 /\
  total_defects (get_summary Sample.orders_results) = 2 /\
  critical_failures (get_summary Sample.orders_results) = 0 /\
  high_failures (get_summary Sample.orders_results) = 1 /\
  total_defects (get_summary Sample.orders_results)
  = total_defects (get_summary (firstn 2 Sample.orders_results)).
Proof.
  destruct (get_summary_counts Sample.orders_results)
    as (H1 & H2 & H3 & H4 & H5 & H6 & H7 & H8).
  assert (H9 := H8 (firstn 2 Sample.orders_results)
                  (nth 2 Sample.orders_results
                     (mkCheckResult JNull JNull JNull JNull 0 "" "" JNull
                        "" "" ""))
                  [] eq_refl eq_refl).
  rewrite app_nil_r in H9.
  split; [now rewrite H1|].
  split; [now rewrite H2|].
  split; [now rewrite H3|].
  split; [now rewrite H4|].
  split; [now rewrite H5|].
  split; [now rewrite H6|].
  split; [now rewrite H7|].
  exact H9.
Defined.

(* ================================================================= *)
(** * Further properties *)

(** ** The response parser at its edges *)

Lemma substring_zero_length s : forall n, substring n 0 s = "".
Proof.
  induction s as [|a s IH]; intros [|n]; simpl; auto.
Qed.

Lemma validate_tests_from acc tests :
  validate_tests tests acc
  = (validated <- validate_tests tests [] ;; Ok (acc ++ validated)).
Proof.
  revert acc. induction tests as [|t rest IH]; intro acc.
  - simpl. now rewrite app_nil_r.
  - rewrite !validate_tests_cons.
    destruct (all_fields_in required_fields t) as [[|]|e]; cbn [bind].
    + rewrite (IH (acc ++ [t])), (IH ([] ++ [t])).
      destruct (validate_tests rest []); cbn [bind app].
      * now rewrite <- app_assoc.
      * reflexivity.
    + apply IH.
    + reflexivity.
Qed.

Lemma validate_tests_all_pass tests :
  Forall (fun t => passes_validation t = true) tests ->
  validate_tests tests [] = Ok tests.
Proof.
  induction 1 as [|t rest Ht _ IH].
  - reflexivity.
  - rewrite validate_tests_cons.
    unfold passes_validation in Ht.
    destruct (all_fields_in required_fields t) as [[|]|e];
      try discriminate.
    cbn [bind app]. rewrite validate_tests_from, IH. reflexivity.
Qed.

Lemma assoc_in_keys key items :
  (exists v, assoc key items = Some v) <-> In key (map fst items).
Proof.
  induction items as [|[k v] rest IH]; simpl.
  - split; [intros [v H]; discriminate | contradiction].
  - destruct (String.eqb_spec k key) as [->|Hne].
    + split; [now left | intros _; now exists v].
    + rewrite IH. split; [now right | intros [H|H]; [contradiction|exact H]].
Qed.

Lemma has_field_in_keys key items :
  has_field key (JObj items) = true <-> In key (map fst items).
Proof.
  rewrite <- assoc_in_keys. unfold has_field.
  destruct (assoc key items) as [v|].
  - split; [intros _; now exists v | reflexivity].
  - split; [discriminate | intros [v H]; discriminate].
Qed.

Section ParseResponseEdges.

Variable json_loads : string -> result (list json).

(** X1.  A response without any ']' is refused with "No JSON array found
    in response", also when it holds a '[': the decoder is not asked. *)
Theorem parse_response_unclosed_bracket text :
  (forall k, String.get k text <> Some "]"%char) ->
  _parse_response json_loads text
  = Raise (Exn ValueError "No JSON array found in response").
Proof.
  intro Hno. unfold _parse_response, rfind.
  rewrite (rfind_from_none _ _ Hno). cbn [index_or_minus_one].
  change (-1 + 1 =? 0) with true. now rewrite orb_true_r.
Qed.

(** X2.  When the last ']' of the response stands before its first '[',
    the response is not refused by the bracket test: the decoder is asked
    to decode the empty string, and the call ends as that decoding ends. *)
Theorem parse_response_reversed_brackets text i j :
  first_index "["%char text i ->
  last_index "]"%char text j ->
  (j < i)%nat ->
  _parse_response json_loads text
  = (tests <- json_loads "" ;; validate_tests tests []).
Proof.
  intros Hi Hj Hlt.
  rewrite (parse_response_brackets _ _ _ _ Hi Hj).
  unfold slice.
  replace (Z.to_nat (Z.of_nat j + 1 - Z.of_nat i)) with 0%nat by lia.
  now rewrite substring_zero_length.
Qed.

End ParseResponseEdges.

(** X3.  Validation is idempotent: validating a list that validation
    returned gives that list back. *)
Theorem validate_tests_idempotent tests validated :
  validate_tests tests [] = Ok validated ->
  validate_tests validated [] = Ok validated.
Proof.
  intro H. apply validate_tests_filter in H. cbn [app] in H. subst.
  apply validate_tests_all_pass.
  apply Forall_forall. intros t Ht. now apply filter_In in Ht.
Qed.

(** X4.  Whether an object passes validation depends on its keys alone: it
    passes exactly when each of the five required names is among its keys.
    The values are not looked at, so an object passes as well with every
    value replaced by null. *)
Theorem validation_looks_at_keys_only items :
  (passes_validation (JObj items) = true <->
   forall field, In field required_fields -> In field (map fst items))
  /\
  passes_validation (JObj (map (fun kv => (fst kv, JNull)) items))
  = passes_validation (JObj items).
Proof.
  assert (Hkeys : forall its,
             passes_validation (JObj its) = true <->
             forall field, In field required_fields ->
                           In field (map fst its)).
  { intro its. rewrite passes_validation_object by reflexivity.
    unfold is_check_spec. rewrite forallb_forall.
    split; intros H field Hin.
    - apply has_field_in_keys, H, Hin.
    - apply has_field_in_keys, H, Hin. }
  split; [apply Hkeys|].
  assert (Hsame : map fst (map (fun kv : string * json => (fst kv, JNull))
                             items) = map fst items).
  { rewrite map_map. reflexivity. }
  destruct (passes_validation (JObj items)) eqn:E.
  - apply Hkeys. rewrite Hsame. now apply Hkeys.
  - destruct (passes_validation (JObj (map _ items))) eqn:E'; [|reflexivity].
    pose proof (proj1 (Hkeys _) E') as Hin. rewrite Hsame in Hin.
    pose proof (proj2 (Hkeys _) Hin). congruence.
Qed.

(** X5.  Validating two arrays one after the other is validating their
    concatenation: the validated lists are concatenated, and the first
    error met, in array order, is the error of the whole. *)
Theorem validate_tests_app tests1 tests2 :
  validate_tests (tests1 ++ tests2) []
  = (validated1 <- validate_tests tests1 [] ;;
     validated2 <- validate_tests tests2 [] ;;
     Ok (validated1 ++ validated2)).
Proof.
  assert (Hgen : forall acc,
             validate_tests (tests1 ++ tests2) acc
             = (v1 <- validate_tests tests1 acc ;; validate_tests tests2 v1)).
  { induction tests1 as [|t rest IH]; intro acc.
    - reflexivity.
    - cbn [app]. rewrite !validate_tests_cons.
      destruct (all_fields_in required_fields t) as [[|]|e]; cbn [bind].
      + apply IH.
      + apply IH.
      + reflexivity. }
  rewrite Hgen.
  destruct (validate_tests tests1 []) as [v1|e]; cbn [bind].
  - apply validate_tests_from.
  - reflexivity.
Qed.

Lemma parse_response_unclosed_bracket_witness :
  _parse_response Sample.json_loads "Here you go: [ clean,"
  = Raise (Exn ValueError "No JSON array found in response").
Proof.
  apply parse_response_unclosed_bracket.
  apply (rfind_from_absent _ _ 0%nat). reflexivity.
Defined.

Lemma parse_response_reversed_brackets_witness :
  _parse_response Sample.json_loads "] and then ["
  = Raise (Exn JSONDecodeError "Expecting value: line 1 column 1 (char 0)").
Proof.
  apply (parse_response_reversed_brackets Sample.json_loads
           "] and then [" 11%nat 0%nat).
  - apply first_index_of_find. reflexivity.
  - apply last_index_of_rfind. reflexivity.
  - lia.
Defined.

Lemma validate_tests_idempotent_witness :
  validate_tests [Sample.clean_check] [] = Ok [Sample.clean_check].
Proof.
  apply (validate_tests_idempotent
           [Sample.clean_check; Sample.incomplete_check]).
  reflexivity.
Defined.

(** ** The executor on incomplete definitions, and its composition *)

Section ExecutorEdges.

Context {World : Type} {Value : Type}.
Variable execute_query : json -> World -> result (list (@row Value)) * World.
Variable utcnow : World -> string * World.
Variable format_value : Value -> string.
Variable str_lower : string -> string.

Local Notation "'run'" :=
  (_execute_single_test execute_query utcnow format_value str_lower).
Local Notation "'run_all'" :=
  (execute_tests execute_query utcnow format_value str_lower).
Local Notation "'run_loop'" :=
  (execute_loop execute_query utcnow format_value str_lower).
Local Notation "'in_order'" :=
  (produced_in_order execute_query utcnow format_value str_lower).

(** The four ways in which the execution of a complete definition ends. *)
Lemma run_shape d model w :
  is_check_spec d = true ->
  exists n c ds q s t w1,
    field_values d n c ds q s /\
    utcnow w = (t, w1) /\
    ((exists e w2,
         execute_query q w1 = (Raise e, w2) /\
         run d model w
         = (Ok (mkCheckResult n c ds q (-1) "" "ERROR" s
                  ("Test execution failed: " ++ exn_str e) t model), w2))
     \/
     (exists text w2,
         execute_query q w1 = (Ok [], w2) /\ ds = JStr text /\
         run d model w
         = (Ok (mkCheckResult n c ds q 0 "" "PASS" s
                  ("No issues found - " ++ str_lower text) t model), w2))
     \/
     (exists w2,
         execute_query q w1 = (Ok [], w2) /\
         (forall text, ds <> JStr text) /\
         run d model w
         = (Ok (mkCheckResult n c ds q (-1) "" "ERROR" s
                  ("Test execution failed: '" ++ type_name ds
                   ++ "' object has no attribute 'lower'") t model), w2))
     \/
     (exists rows w2,
         execute_query q w1 = (Ok rows, w2) /\ rows <> [] /\
         run d model w
         = (Ok (mkCheckResult n c ds q (Z.of_nat (List.length rows))
                  (format_defect_examples format_value rows
                     MAX_DEFECT_EXAMPLES)
                  "FAIL" s
                  (failure_note c (Z.of_nat (List.length rows))) t model),
            w2))).
Proof.
  intro Hspec.
  destruct (check_spec_field_values _ Hspec) as (n & c & ds & q & s & Hf).
  destruct (utcnow w) as [t w1] eqn:Hclock.
  exists n, c, ds, q, s, t, w1. split; [exact Hf|]. split; [reflexivity|].
  destruct (execute_query q w1) as [[rows|e] w2] eqn:Hquery.
  - destruct rows as [|row rows].
    + destruct (not_text_cases ds) as [[text ->]|Hother].
      * right. left. exists text, w2. repeat split.
        eapply run_no_rows_text; eauto.
      * right. right. left. exists w2. repeat split; [exact Hother|].
        eapply run_no_rows_other; eauto.
    + right. right. right. exists (row :: rows), w2.
      repeat split; [discriminate|].
      eapply run_rows; eauto. discriminate.
  - left. exists e, w2. split; [reflexivity|].
    eapply run_query_raises; eauto.
Qed.

Lemma all_complete_produced ds model :
  Forall (fun d => is_check_spec d = true) ds ->
  forall w, exists rs w', in_order model w ds rs w'.
Proof.
  induction 1 as [|d ds Hd _ IH]; intro w.
  - exists [], w. constructor.
  - destruct (run_check_spec execute_query utcnow format_value str_lower
                d model w Hd) as (r & w1 & Hrun & _).
    destruct (IH w1) as (rs & w' & Hrest).
    exists (r :: rs), w'. econstructor; eassumption.
Qed.

Lemma produced_all_complete model w ds rs w' :
  in_order model w ds rs w' ->
  Forall (fun d => is_check_spec d = true) ds.
Proof.
  induction 1 as [|w d r w1 ds rs w2 Hrun _ IH]; constructor.
  - exact (run_returns_check_spec _ _ _ _ _ _ _ _ _ Hrun).
  - exact IH.
Qed.

Lemma run_loop_from ds model :
  forall acc w,
    run_loop ds model acc w
    = match run_loop ds model [] w with
      | (Ok rs, w') => (Ok (acc ++ rs), w')
      | (Raise e, w') => (Raise e, w')
      end.
Proof.
  induction ds as [|d ds IH]; intros acc w.
  - cbn [execute_loop]. unfold ret. now rewrite app_nil_r.
  - cbn [execute_loop]. unfold mbind.
    destruct (run d model w) as [[r|e] w1]; [|reflexivity].
    rewrite (IH (acc ++ [r])), (IH ([] ++ [r])).
    destruct (run_loop ds model [] w1) as [[rs|e] w2]; [|reflexivity].
    cbn [app]. now rewrite <- app_assoc.
Qed.

Lemma run_loop_app ds1 ds2 model :
  forall acc w,
    run_loop (ds1 ++ ds2) model acc w
    = match run_loop ds1 model acc w with
      | (Ok rs, w1) => run_loop ds2 model rs w1
      | (Raise e, w1) => (Raise e, w1)
      end.
Proof.
  induction ds1 as [|d ds1 IH]; intros acc w.
  - reflexivity.
  - cbn [app execute_loop]. unfold mbind.
    destruct (run d model w) as [[r|e] w1]; [|reflexivity].
    apply IH.
Qed.

(** X6.  Executing one definition returns a result exactly when the
    definition is an object that holds the five required keys; for every
    other value the exception raised by a subscript escapes to the
    caller. *)
Theorem single_test_returns_iff_complete d model w :
  (exists r w', run d model w = (Ok r, w')) <-> is_check_spec d = true.
Proof.
  split.
  - intros (r & w' & Hrun).
    exact (run_returns_check_spec _ _ _ _ _ _ _ _ _ Hrun).
  - intro Hspec.
    destruct (run_check_spec execute_query utcnow format_value str_lower
                d model w Hspec) as (r & w' & Hrun & _).
    now exists r, w'.
Qed.

(** X7.  A batch returns its list of results exactly when every definition
    in it is an object that holds the five required keys.  One definition
    that is not makes the whole call raise, and the results of the
    definitions before it are not returned. *)
Theorem execute_tests_returns_iff_all_complete ds model w :
  (exists rs w', run_all ds model w = (Ok rs, w')) <->
  Forall (fun d => is_check_spec d = true) ds.
Proof.
  split.
  - intros (rs & w' & Hall).
    destruct (execute_loop_produced _ _ _ _ _ _ _ _ _ _ Hall)
      as [rs0 [_ Hord]].
    exact (produced_all_complete _ _ _ _ _ Hord).
  - intro Hall.
    destruct (all_complete_produced _ model Hall w) as (rs & w' & Hord).
    exists rs, w'. unfold execute_tests.
    now rewrite (produced_execute_loop _ _ _ _ _ _ _ _ _ Hord).
Qed.

(** X8.  Executing a concatenated batch is executing its first part and
    then, in the world the first part left, its second part: the results
    are concatenated, and an exception of either part is the exception of
    the whole. *)
Theorem execute_tests_app ds1 ds2 model w :
  execute_tests execute_query utcnow format_value str_lower
    (ds1 ++ ds2) model w
  = match execute_tests execute_query utcnow format_value str_lower
            ds1 model w with
    | (Ok rs1, w1) =>
        match execute_tests execute_query utcnow format_value str_lower
                ds2 model w1 with
        | (Ok rs2, w2) => (Ok (rs1 ++ rs2), w2)
        | (Raise e, w2) => (Raise e, w2)
        end
    | (Raise e, w1) => (Raise e, w1)
    end.
Proof.
  unfold execute_tests. rewrite run_loop_app.
  destruct (run_loop ds1 model [] w) as [[rs1|e] w1]; [|reflexivity].
  apply run_loop_from.
Qed.

End ExecutorEdges.

Section ExecutorOutcomes.

Context {World : Type} {Value : Type}.
Variable execute_query : json -> World -> result (list (@row Value)) * World.
Variable utcnow : World -> string * World.
Variable format_value : Value -> string.
Variable str_lower : string -> string.

Local Notation "'run'" :=
  (_execute_single_test execute_query utcnow format_value str_lower).
Local Notation "'run_all'" :=
  (execute_tests execute_query utcnow format_value str_lower).

(** X9.  For an object that lacks one of the five keys the exception that
    escapes is the KeyError of the first key missing in the order in which
    the executor reads them: test_name, test_query, test_category,
    test_description, severity. *)
Theorem incomplete_object_raises_key_error items key model w :
  List.find (fun field => negb (has_field field (JObj items)))
    ["test_name"; "test_query"; "test_category"; "test_description";
     "severity"]
  = Some key ->
  exists w',
    run (JObj items) model w
    = (Raise (Exn KeyError ("'" ++ key ++ "'")), w').
Proof.
  unfold has_field. cbn [List.find].
  destruct (assoc "test_name" items) as [n|] eqn:H1; cbn [negb].
  2:{ intros [= <-]. exists w.
      unfold _execute_single_test, mbind, lift, getitem. now rewrite H1. }
  destruct (assoc "test_query" items) as [q|] eqn:H4; cbn [negb].
  2:{ intros [= <-]. exists w.
      unfold _execute_single_test, mbind, lift, getitem.
      now rewrite H1, H4. }
  destruct (utcnow w) as [t w1] eqn:Hclock.
  destruct (execute_query q w1) as [[rows|e] w2] eqn:Hquery.
  all: destruct (assoc "test_category" items) as [c|] eqn:H2; cbn [negb].
  all: try destruct (assoc "test_description" items) as [ds|] eqn:H3;
    cbn [negb].
  all: try destruct (assoc "severity" items) as [s|] eqn:H5; cbn [negb].
  all: try discriminate.
  all: intros [= <-]; exists w2.
  all: unfold _execute_single_test, _generate_notes, mbind, lift,
         try_except, now, ret, getitem.
  all: rewrite ?H1, ?H4, ?Hclock, ?Hquery, ?H2, ?H3, ?H5; cbn [bind].
  all: try reflexivity.
  all: try (destruct rows as [|r rows]; cbn; rewrite ?H2, ?H3, ?H5;
            try reflexivity).
  all: try (destruct (lower str_lower ds); cbn; rewrite ?H2, ?H3, ?H5;
            reflexivity).
  all: repeat (destruct (eq_str c _); cbn; rewrite ?H2, ?H3, ?H5;
               try reflexivity).
Qed.

(** X10.  For a complete definition the clock is read first and the query
    is then run once, in the world the clock left; whatever the query
    answers, the result carries that reading as its timestamp and the name
    of the audited model, and the world after the call is the world the
    query left. *)
Theorem query_runs_once_after_timestamp d model w q t w1 outcome w2 :
  is_check_spec d = true ->
  getitem d "test_query" = Ok q ->
  utcnow w = (t, w1) ->
  execute_query q w1 = (outcome, w2) ->
  exists r,
    run d model w = (Ok r, w2) /\
    execution_timestamp r = t /\
    model_name r = model.
Proof.
  intros Hspec Hq Hclock Hquery.
  destruct (run_shape execute_query utcnow format_value str_lower
              d model w Hspec)
    as (n & c & ds & q0 & s & t0 & w0 & Hf & Hclock0 & Hcases).
  assert (q0 = q) as ->.
  { destruct Hf as (_ & _ & _ & H4 & _). congruence. }
  rewrite Hclock in Hclock0. injection Hclock0 as <- <-.
  destruct Hcases as [(e & w3 & Hq3 & Hrun)
                     |[(text & w3 & Hq3 & _ & Hrun)
                      |[(w3 & Hq3 & _ & Hrun)
                       |(rows & w3 & Hq3 & _ & Hrun)]]];
    rewrite Hquery in Hq3; injection Hq3 as _ <-;
    eexists; (split; [exact Hrun|]); split; reflexivity.
Qed.

(** X11.  A query that finds no rows does not give PASS when the
    description of the check is not a text: lower-casing it raises inside
    the guarded block, and the result is ERROR with defect count -1 and
    the notes of a failed execution. *)
Theorem non_text_description_gives_error d model w ds q t w1 w2 :
  is_check_spec d = true ->
  getitem d "test_description" = Ok ds ->
  (forall text, ds <> JStr text) ->
  getitem d "test_query" = Ok q ->
  utcnow w = (t, w1) ->
  execute_query q w1 = (Ok [], w2) ->
  exists r,
    run d model w = (Ok r, w2) /\
    status r = "ERROR" /\
    defect_count r = -1 /\
    notes r
    = ("Test execution failed: '" ++ type_name ds
       ++ "' object has no attribute 'lower'")%string.
Proof.
  intros Hspec Hds Hother Hq Hclock Hquery.
  destruct (check_spec_field_values _ Hspec) as (n & c & ds0 & q0 & s & Hf).
  assert (ds0 = ds /\ q0 = q) as [-> ->].
  { destruct Hf as (_ & _ & H3 & H4 & _). split; congruence. }
  eexists. split.
  - eapply run_no_rows_other; eassumption.
  - repeat split.
Qed.

(** X12.  Only FAIL results carry defect examples: in every returned
    result whose status is not FAIL the examples are empty. *)
Theorem only_failures_carry_examples d model w r w' :
  _execute_single_test execute_query utcnow format_value str_lower d model w
  = (Ok r, w') ->
  status r <> "FAIL" ->
  defect_examples r = "".
Proof.
  intros Hrun Hstatus.
  pose proof (run_returns_check_spec _ _ _ _ _ _ _ _ _ Hrun) as Hspec.
  destruct (run_shape execute_query utcnow format_value str_lower
              d model w Hspec)
    as (n & c & ds & q & s & t & w1 & _ & _ & Hcases).
  destruct Hcases as [(e & w3 & _ & Hrun')
                     |[(text & w3 & _ & _ & Hrun')
                      |[(w3 & _ & _ & Hrun')
                       |(rows & w3 & _ & _ & Hrun')]]];
    rewrite Hrun in Hrun'; injection Hrun' as -> _;
    try reflexivity.
  now destruct Hstatus.
Qed.

(** X13.  What the parser returns can be executed: when the list returned
    for a response consists of objects, executing it never raises and
    gives one result for each element of the list. *)
Theorem parsed_objects_always_execute json_loads text tests model w :
  _parse_response json_loads text = Ok tests ->
  Forall (fun t => is_object t = true) tests ->
  exists rs w',
    run_all tests model w = (Ok rs, w') /\
    List.length rs = List.length tests.
Proof.
  intros Hparse Hobj.
  destruct (parse_response_returns _ _ _ Hparse)
    as (payload & decoded & _ & Hv).
  apply validate_tests_filter in Hv. cbn [app] in Hv.
  assert (Hall : Forall (fun d => is_check_spec d = true) tests).
  { apply Forall_forall. intros d Hd.
    rewrite <- passes_validation_object
      by (exact (proj1 (Forall_forall _ _) Hobj d Hd)).
    subst tests. now apply filter_In in Hd. }
  destruct (all_complete_produced execute_query utcnow format_value
              str_lower _ model Hall w) as (rs & w' & Hord).
  exists rs, w'. split.
  - unfold execute_tests.
    now rewrite (produced_execute_loop _ _ _ _ _ _ _ _ _ Hord).
  - exact (produced_length _ _ _ _ _ _ _ _ _ Hord).
Qed.

(** X14.  The membership test of validation is also passed by a string in
    which the five field names occur: validation keeps such an element,
    and every batch that holds it raises instead of returning results. *)
Theorem retained_string_breaks_execution s :
  (forall field, In field required_fields -> str_contains field s = true) ->
  validate_tests [JStr s] [] = Ok [JStr s] /\
  (forall ds model w,
      In (JStr s) ds ->
      exists e w', run_all ds model w = (Raise e, w')).
Proof.
  intro Hin. split.
  - rewrite validate_tests_cons. cbn.
    rewrite !Hin by (cbn; tauto). reflexivity.
  - intros ds model w Hds.
    destruct (run_all ds model w) as [[rs|e] w'] eqn:Hall.
    + exfalso.
      destruct (execute_loop_produced _ _ _ _ _ _ _ _ _ _ Hall)
        as [rs0 [_ Hord]].
      pose proof (produced_all_complete _ _ _ _ _ _ _ _ _ Hord) as Hc.
      pose proof (proj1 (Forall_forall _ _) Hc _ Hds) as Hbad.
      discriminate.
    + now exists e, w'.
Qed.

End ExecutorOutcomes.

Lemma single_test_returns_iff_complete_witness :
  (exists r w', Sample.run_single Sample.dirty_check 0%nat = (Ok r, w'))
  /\ is_check_spec Sample.incomplete_check = false.
Proof.
  split.
  - apply (proj2 (single_test_returns_iff_complete Sample.execute_query
                    Sample.utcnow str_of_int Sample.lower_text
                    Sample.dirty_check "orders" 0%nat)).
    reflexivity.
  - reflexivity.
Defined.

Lemma execute_tests_returns_iff_all_complete_witness :
  exists rs w',
    Sample.run_batch [Sample.clean_check; Sample.broken_check] 0%nat
    = (Ok rs, w').
Proof.
  apply (proj2 (execute_tests_returns_iff_all_complete Sample.execute_query
                  Sample.utcnow str_of_int Sample.lower_text
                  [Sample.clean_check; Sample.broken_check] "orders" 0%nat)).
  repeat constructor.
Defined.

Lemma incomplete_object_raises_key_error_witness :
  exists w',
    Sample.run_single Sample.incomplete_check 0%nat
    = (Raise (Exn KeyError "'severity'"), w').
Proof.
  apply (incomplete_object_raises_key_error Sample.execute_query
           Sample.utcnow str_of_int Sample.lower_text
           [ ("test_name", JStr "orders_nulls");
             ("test_category", JStr "Nullability");
             ("test_description", JStr "No NULL order ids");
             ("test_query", JStr "select none") ]
           "severity" "orders" 0%nat).
  reflexivity.
Defined.

Lemma query_runs_once_after_timestamp_witness :
  exists r,
    Sample.run_single Sample.dirty_check 0%nat = (Ok r, 1%nat) /\
    execution_timestamp r = "2024-05-01 12:00:00 UTC" /\
    model_name r = "orders".
Proof.
  apply (query_runs_once_after_timestamp Sample.execute_query Sample.utcnow
           str_of_int Sample.lower_text Sample.dirty_check "orders" 0%nat
           (JStr "select two") "2024-05-01 12:00:00 UTC" 0%nat
           (Ok (map Sample.orders_row [10; 11])) 1%nat);
    reflexivity.
Defined.

Lemma non_text_description_gives_error_witness :
  exists r,
    Sample.run_single
      (JObj [ ("test_name", JStr "orders_count");
              ("test_category", JStr "Business Logic");
              ("test_description", JNull);
              ("test_query", JStr "select none");
              ("severity", JStr "LOW") ]) 0%nat
    = (Ok r, 1%nat) /\
    status r = "ERROR" /\
    defect_count r = -1 /\
    notes r
    = "Test execution failed: 'NoneType' object has no attribute 'lower'".
Proof.
  apply (non_text_description_gives_error Sample.execute_query Sample.utcnow
           str_of_int Sample.lower_text _ "orders" 0%nat JNull
           (JStr "select none") "2024-05-01 12:00:00 UTC" 0%nat 1%nat);
    try reflexivity.
  intros text. discriminate.
Defined.

Lemma only_failures_carry_examples_witness :
  exists r,
    Sample.run_single Sample.broken_check 0%nat = (Ok r, 1%nat) /\
    defect_examples r = "".
Proof.
  eexists. split; [reflexivity|].
  apply (only_failures_carry_examples Sample.execute_query Sample.utcnow
           str_of_int Sample.lower_text Sample.broken_check "orders"
           0%nat _ 1%nat eq_refl).
  discriminate.
Defined.

Lemma parsed_objects_always_execute_witness :
  exists rs w',
    Sample.run_batch [Sample.clean_check] 0%nat = (Ok rs, w') /\
    List.length rs = 1%nat.
Proof.
  apply (parsed_objects_always_execute Sample.execute_query Sample.utcnow
           str_of_int Sample.lower_text Sample.json_loads
           "Sure: [clean, incomplete] done" [Sample.clean_check]
           "orders" 0%nat).
  - reflexivity.
  - repeat constructor.
Defined.

Lemma retained_string_breaks_execution_witness :
  validate_tests
    [JStr "test_name test_category test_description test_query severity"] []
  = Ok [JStr "test_name test_category test_description test_query severity"]
  /\
  exists e w',
    Sample.run_batch
      [Sample.clean_check;
       JStr "test_name test_category test_description test_query severity"]
      0%nat
    = (Raise e, w').
Proof.
  assert (Hnames : forall field,
             In field required_fields ->
             str_contains field
               "test_name test_category test_description test_query severity"
             = true).
  { intros field Hin. cbn in Hin.
    repeat (destruct Hin as [<-|Hin]; [reflexivity|]). contradiction. }
  destruct (retained_string_breaks_execution
              (World := nat) Sample.execute_query Sample.utcnow str_of_int
              Sample.lower_text _ Hnames) as [Hkept Hraises].
  split; [exact Hkept|].
  apply Hraises. cbn. tauto.
Defined.

(** ** Defect examples *)

Lemma slice_to_nonneg {A : Type} (l : list A) (stop : Z) :
  0 <= stop -> slice_to l stop = firstn (Z.to_nat stop) l.
Proof.
  intro H. unfold slice_to.
  now replace (stop <? 0) with false by (symmetry; apply Z.ltb_ge; lia).
Qed.

(** X15.  For a limit that is not negative the defect examples are made of
    the first [limit] rows only: they are those of
    [format_defect_examples] at that limit, every row is rendered when
    there are at most [limit] rows, and rows that come after the first
    [limit] never change the text.  For a negative limit the slice counts
    from the end instead: the last [-limit] rows are left out. *)
Theorem format_defect_examples_uses_first_rows
  {Value : Type} (format_value : Value -> string)
  (rows extra : list (@row Value)) (limit : Z) :
  (0 <= limit ->
   format_defect_examples_limit format_value rows limit
   = format_defect_examples format_value rows (Z.to_nat limit)
   /\
   (Z.of_nat (List.length rows) <= limit ->
    format_defect_examples_limit format_value rows limit
    = String.concat "; " (map (format_row format_value) rows))
   /\
   (limit <= Z.of_nat (List.length rows) ->
    format_defect_examples_limit format_value (rows ++ extra) limit
    = format_defect_examples_limit format_value rows limit))
  /\
  (limit < 0 ->
   format_defect_examples_limit format_value rows limit
   = String.concat "; "
       (map (format_row format_value)
          (firstn (List.length rows - Z.to_nat (- limit)) rows))).
Proof.
  split.
  - intro Hpos. unfold format_defect_examples_limit, format_defect_examples.
    rewrite !slice_to_nonneg by exact Hpos.
    split; [reflexivity|]. split.
    + intro Hfew. rewrite firstn_all2 by lia. now destruct rows.
    + intro Hmany. rewrite firstn_app.
      replace (Z.to_nat limit - List.length rows)%nat with 0%nat by lia.
      cbn [firstn]. rewrite app_nil_r.
      destruct rows as [|r rows].
      * cbn [List.length] in Hmany. assert (limit = 0) as -> by lia.
        cbn [app]. now destruct extra.
      * reflexivity.
  - intro Hneg. unfold format_defect_examples_limit, slice_to.
    replace (limit <? 0) with true by (symmetry; apply Z.ltb_lt; lia).
    replace (Z.to_nat (Z.of_nat (List.length rows) + limit))
      with (List.length rows - Z.to_nat (- limit))%nat by lia.
    now destruct rows.
Qed.

Lemma format_defect_examples_uses_first_rows_witness :
  format_defect_examples_limit str_of_int
    (map Sample.orders_row [1; 2] ++ map Sample.orders_row [3; 4]) 2
  = "order_id=1, total=-1; order_id=2, total=-1"
  /\
  format_defect_examples_limit str_of_int (map Sample.orders_row [1; 2]) 5
  = "order_id=1, total=-1; order_id=2, total=-1"
  /\
  format_defect_examples_limit str_of_int
    (map Sample.orders_row [1; 2; 3]) (-1)
  = "order_id=1, total=-1; order_id=2, total=-1".
Proof.
  split; [|split].
  - destruct (proj1 (format_defect_examples_uses_first_rows str_of_int
                       (map Sample.orders_row [1; 2])
                       (map Sample.orders_row [3; 4]) 2))
      as (_ & _ & Hcut); [lia|].
    rewrite Hcut; [reflexivity | simpl; lia].
  - destruct (proj1 (format_defect_examples_uses_first_rows str_of_int
                       (map Sample.orders_row [1; 2]) [] 5))
      as (_ & Hall & _); [lia|].
    rewrite Hall; [reflexivity | simpl; lia].
  - rewrite (proj2 (format_defect_examples_uses_first_rows str_of_int
                      (map Sample.orders_row [1; 2; 3]) [] (-1)));
      [reflexivity | lia].
Defined.

(** ** The summary as a fold *)

Lemma count_results_app p rs rs' :
  count_results p (rs ++ rs') = count_results p rs + count_results p rs'.
Proof.
  induction rs as [|r rs IH]; simpl.
  - reflexivity.
  - rewrite IH. lia.
Qed.

Lemma count_results_bounds p rs :
  0 <= count_results p rs <= Z.of_nat (List.length rs).
Proof.
  induction rs as [|r rs IH]; simpl List.length; cbn [count_results].
  - lia.
  - destruct (p r); lia.
Qed.

Lemma positive_defect_sum_nonneg rs : 0 <= positive_defect_sum rs.
Proof.
  induction rs as [|r rs IH]; cbn [positive_defect_sum].
  - lia.
  - destruct (0 <? defect_count r) eqn:E; [apply Z.ltb_lt in E|]; lia.
Qed.

Lemma count_results_perm p rs rs' :
  Permutation rs rs' -> count_results p rs = count_results p rs'.
Proof.
  induction 1; cbn [count_results]; lia.
Qed.

Lemma positive_defect_sum_perm rs rs' :
  Permutation rs rs' -> positive_defect_sum rs = positive_defect_sum rs'.
Proof.
  induction 1; cbn [positive_defect_sum]; lia.
Qed.

Lemma get_summary_fields rs :
  get_summary rs
  = mkAuditSummary (Z.of_nat (List.length rs))
      (count_results (is_status "PASS") rs)
      (count_results (is_status "FAIL") rs)
      (count_results (is_status "ERROR") rs)
      (positive_defect_sum rs)
      (count_results (is_failure_at "CRITICAL") rs)
      (count_results (is_failure_at "HIGH") rs).
Proof.
  unfold get_summary.
  now rewrite !count_if_count_results, sum_positive_defects.
Qed.

Lemma status_counts_exclusive rs :
  count_results (is_status "PASS") rs
  + count_results (is_status "FAIL") rs
  + count_results (is_status "ERROR") rs
  <= Z.of_nat (List.length rs).
Proof.
  induction rs as [|r rs IH]; simpl List.length; cbn [count_results].
  - lia.
  - unfold is_status at 1 3 5.
    destruct (String.eqb_spec (status r) "PASS") as [E1|_];
      destruct (String.eqb_spec (status r) "FAIL") as [E2|_];
      destruct (String.eqb_spec (status r) "ERROR") as [E3|_];
      try (rewrite E1 in *; discriminate);
      try (rewrite E2 in *; discriminate);
      lia.
Qed.

Lemma severity_counts_within_failed rs :
  count_results (is_failure_at "CRITICAL") rs
  + count_results (is_failure_at "HIGH") rs
  <= count_results (is_status "FAIL") rs.
Proof.
  induction rs as [|r rs IH]; cbn [count_results].
  - lia.
  - unfold is_failure_at at 1 3, is_status at 1.
    destruct (String.eqb (status r) "FAIL"); cbn [andb]; [|lia].
    destruct (eq_str (severity r) "CRITICAL") eqn:E1;
      destruct (eq_str (severity r) "HIGH") eqn:E2; try lia.
    apply eq_str_true in E1. apply eq_str_true in E2.
    rewrite E1 in E2. discriminate.
Qed.

(** X16.  The summary is additive: every number in the summary of a
    concatenated result list is the sum of the numbers in the summaries of
    the two parts. *)
Theorem get_summary_app rs rs' :
  let s := get_summary (rs ++ rs') in
  let a := get_summary rs in
  let b := get_summary rs' in
  total_tests s = total_tests a + total_tests b /\
  passed s = passed a + passed b /\
  failed s = failed a + failed b /\
  errors s = errors a + errors b /\
  total_defects s = total_defects a + total_defects b /\
  critical_failures s = critical_failures a + critical_failures b /\
  high_failures s = high_failures a + high_failures b.
Proof.
  rewrite !get_summary_fields.
  cbn [total_tests passed failed errors total_defects critical_failures
         high_failures].
  rewrite !count_results_app, positive_defect_sum_app, length_app.
  repeat split; lia.
Qed.

(** X17.  In the summary of any result list no number is negative, passed,
    failed and errors together do not exceed total_tests, and the critical
    and high failures together do not exceed failed. *)
Theorem get_summary_bounds rs :
  let s := get_summary rs in
  0 <= passed s /\ 0 <= failed s /\ 0 <= errors s /\
  0 <= total_defects s /\
  0 <= critical_failures s /\ 0 <= high_failures s /\
  passed s + failed s + errors s <= total_tests s /\
  critical_failures s + high_failures s <= failed s.
Proof.
  rewrite get_summary_fields.
  cbn [total_tests passed failed errors total_defects critical_failures
         high_failures].
  pose proof (count_results_bounds (is_status "PASS") rs).
  pose proof (count_results_bounds (is_status "FAIL") rs).
  pose proof (count_results_bounds (is_status "ERROR") rs).
  pose proof (count_results_bounds (is_failure_at "CRITICAL") rs).
  pose proof (count_results_bounds (is_failure_at "HIGH") rs).
  pose proof (positive_defect_sum_nonneg rs).
  pose proof (status_counts_exclusive rs).
  pose proof (severity_counts_within_failed rs).
  repeat split; lia.
Qed.

(** X18.  The summary does not depend on the order of the results. *)
Theorem get_summary_permutation rs rs' :
  Permutation rs rs' -> get_summary rs = get_summary rs'.
Proof.
  intro Hperm. rewrite !get_summary_fields.
  rewrite (Permutation_length Hperm).
  rewrite !(count_results_perm _ _ _ Hperm).
  now rewrite (positive_defect_sum_perm _ _ Hperm).
Qed.

Lemma get_summary_permutation_witness :
  get_summary Sample.orders_results = get_summary (rev Sample.orders_results).
Proof.
  apply get_summary_permutation. apply Permutation_rev.
Defined.

Lemma classified_counts rs :
  Forall classified rs ->
  count_results (is_status "PASS") rs
  + count_results (is_status "FAIL") rs
  + count_results (is_status "ERROR") rs
  = Z.of_nat (List.length rs)
  /\ count_results (is_status "FAIL") rs <= positive_defect_sum rs
  /\ (count_results (is_status "FAIL") rs = 0 -> positive_defect_sum rs = 0).
Proof.
  induction 1 as [|r rs Hr _ IH];
    simpl List.length; cbn [count_results positive_defect_sum].
  - repeat split; lia.
  - destruct IH as (IH1 & IH2 & IH3).
    destruct Hr as (Hpass & Hfail & Herr & Hone).
    pose proof (count_results_bounds (is_status "FAIL") rs) as Hb.
    unfold is_status at 1 3 5 7 9.
    destruct Hone as [E|[E|E]]; rewrite E; cbn [String.eqb Ascii.eqb Bool.eqb].
    + apply Hpass in E. rewrite E. cbn [Z.ltb Z.compare].
      repeat split; lia.
    + apply Hfail in E.
      replace (0 <? defect_count r) with true
        by (symmetry; apply Z.ltb_lt; lia).
      repeat split; lia.
    + apply Herr in E. rewrite E. cbn [Z.ltb Z.compare].
      repeat split; lia.
Qed.

Section SummaryOfBatch.

Context {World : Type} {Value : Type}.
Variable execute_query : json -> World -> result (list (@row Value)) * World.
Variable utcnow : World -> string * World.
Variable format_value : Value -> string.
Variable str_lower : string -> string.

Lemma produced_classified model w ds rs w' :
  produced_in_order execute_query utcnow format_value str_lower
    model w ds rs w' ->
  Forall classified rs.
Proof.
  induction 1 as [|w d r w1 ds rs w2 Hrun _ IH]; constructor; [|exact IH].
  pose proof (run_returns_check_spec _ _ _ _ _ _ _ _ _ Hrun) as Hspec.
  destruct (run_check_spec execute_query utcnow format_value str_lower
              d model w Hspec) as (r0 & w0 & Hrun0 & _ & Hc & _).
  rewrite Hrun in Hrun0. now injection Hrun0 as <- <-.
Qed.

(** X19.  In the summary of what a batch returned, total_tests is the
    number of definitions in the batch, every result is counted as exactly
    one of passed, failed and errors, there are at least as many defects
    as failed checks, and total_defects is 0 exactly when no check
    failed. *)
Theorem summary_of_executed_batch ds model w rs w' :
  execute_tests execute_query utcnow format_value str_lower ds model w
  = (Ok rs, w') ->
  let s := get_summary rs in
  total_tests s = Z.of_nat (List.length ds) /\
  passed s + failed s + errors s = total_tests s /\
  failed s <= total_defects s /\
  (total_defects s = 0 <-> failed s = 0).
Proof.
  intro Hall.
  destruct (execute_loop_produced _ _ _ _ _ _ _ _ _ _ Hall)
    as [rs0 [-> Hord]].
  cbn [app].
  pose proof (produced_length _ _ _ _ _ _ _ _ _ Hord) as Hlen.
  destruct (classified_counts _ (produced_classified _ _ _ _ _ Hord))
    as (Hsum & Hle & Hzero).
  pose proof (count_results_bounds (is_status "FAIL") rs0) as Hb.
  rewrite get_summary_fields.
  cbn [total_tests passed failed errors total_defects].
  rewrite Hlen in *.
  repeat split; lia.
Qed.

End SummaryOfBatch.

Lemma summary_of_executed_batch_witness :
  total_tests (get_summary Sample.orders_results) = 3 /\
  passed (get_summary Sample.orders_results)
  + failed (get_summary Sample.orders_results)
  + errors (get_summary Sample.orders_results)
  = total_tests (get_summary Sample.orders_results) /\
  failed (get_summary Sample.orders_results)
  <= total_defects (get_summary Sample.orders_results) /\
  (total_defects (get_summary Sample.orders_results) = 0 <->
   failed (get_summary Sample.orders_results) = 0).
Proof.
  apply (summary_of_executed_batch Sample.execute_query Sample.utcnow
           str_of_int Sample.lower_text
           [Sample.clean_check; Sample.dirty_check; Sample.broken_check]
           "orders" 0%nat Sample.orders_results 3%nat).
  reflexivity.
Defined.

(** ** Row dicts and the query runner *)

Section DictFacts.

Context {V : Type}.

Lemma dict_set_fresh k (v : V) items :
  ~ In k (map fst items) -> dict_set k v items = items ++ [(k, v)].
Proof.
  induction items as [|[k' v'] rest IH]; intro Hfresh; cbn.
  - reflexivity.
  - destruct (String.eqb_spec k' k) as [->|_].
    + destruct Hfresh. now left.
    + rewrite IH; [reflexivity|]. intro Hin. apply Hfresh. now right.
Qed.

Lemma dict_set_keys k (v : V) items :
  map fst (dict_set k v items)
  = if in_dec string_dec k (map fst items)
    then map fst items
    else map fst items ++ [k].
Proof.
  induction items as [|[k' v'] rest IH]; cbn [dict_set map fst].
  - reflexivity.
  - destruct (String.eqb_spec k' k) as [->|Hne].
    + cbn [map fst]. clear IH.
      destruct (in_dec string_dec k (k :: map fst rest)) as [_|Hout];
        [reflexivity|].
      destruct Hout. now left.
    + cbn [map fst]. rewrite IH.
      destruct (in_dec string_dec k (map fst rest)) as [Hin|Hout];
        destruct (in_dec string_dec k (k' :: map fst rest)) as [Hin'|Hout'];
        try reflexivity.
      * destruct Hout'. now right.
      * destruct Hin' as [E|Hin']; [congruence | contradiction].
Qed.

Lemma dict_set_nodup k (v : V) items :
  NoDup (map fst items) -> NoDup (map fst (dict_set k v items)).
Proof.
  intro Hnd. rewrite dict_set_keys.
  destruct (in_dec _ _ _) as [_|Hout]; [exact Hnd|].
  apply NoDup_app; [exact Hnd | repeat constructor; intros [] |].
  intros x Hx [<-|[]]. contradiction.
Qed.

Lemma dict_get_set k (v : V) items k' :
  dict_get k' (dict_set k v items)
  = if String.eqb k k' then Some v else dict_get k' items.
Proof.
  induction items as [|[k0 v0] rest IH]; cbn [dict_set dict_get].
  - destruct (String.eqb k k'); reflexivity.
  - destruct (String.eqb_spec k0 k) as [->|Hne]; cbn [dict_get].
    + destruct (String.eqb k k'); reflexivity.
    + rewrite IH.
      destruct (String.eqb_spec k0 k') as [->|_]; [|reflexivity].
      destruct (String.eqb_spec k k') as [E|_]; [congruence | reflexivity].
Qed.

Lemma dict_get_app k (a b : list (string * V)) :
  dict_get k (a ++ b)
  = match dict_get k a with
    | Some v => Some v
    | None => dict_get k b
    end.
Proof.
  induction a as [|[k' v'] a IH]; cbn [app dict_get].
  - reflexivity.
  - destruct (String.eqb k' k); [reflexivity | exact IH].
Qed.

Lemma dict_fold_nodup (pairs : list (string * V)) :
  forall acc,
    NoDup (map fst acc) ->
    NoDup (map fst
             (fold_left (fun d kv => dict_set (fst kv) (snd kv) d) pairs acc)).
Proof.
  induction pairs as [|p pairs IH]; intros acc Hnd; cbn [fold_left].
  - exact Hnd.
  - apply IH, dict_set_nodup, Hnd.
Qed.

Lemma dict_fold_get (pairs : list (string * V)) k :
  forall acc,
    dict_get k
      (fold_left (fun d kv => dict_set (fst kv) (snd kv) d) pairs acc)
    = match dict_get k (rev pairs) with
      | Some v => Some v
      | None => dict_get k acc
      end.
Proof.
  induction pairs as [|[k0 v0] pairs IH]; intro acc; cbn [fold_left rev].
  - reflexivity.
  - rewrite IH, dict_get_app, dict_get_set. cbn [fst snd dict_get].
    destruct (dict_get k (rev pairs)); [reflexivity|].
    destruct (String.eqb k0 k); reflexivity.
Qed.

Lemma dict_fold_length (pairs : list (string * V)) :
  forall acc,
    (List.length
       (fold_left (fun d kv => dict_set (fst kv) (snd kv) d) pairs acc)
     <= List.length acc + List.length pairs)%nat.
Proof.
  induction pairs as [|p pairs IH]; intro acc; cbn [fold_left List.length].
  - lia.
  - etransitivity; [apply IH|].
    assert (List.length (dict_set (fst p) (snd p) acc)
            <= S (List.length acc))%nat; [|lia].
    clear. induction acc as [|[k' v'] acc IHa]; cbn [dict_set List.length].
    + lia.
    + destruct (String.eqb k' (fst p)); cbn [List.length]; lia.
Qed.

Lemma dict_fold_fresh (pairs : list (string * V)) :
  forall acc,
    NoDup (map fst acc ++ map fst pairs) ->
    fold_left (fun d kv => dict_set (fst kv) (snd kv) d) pairs acc
    = acc ++ pairs.
Proof.
  induction pairs as [|[k v] pairs IH]; intros acc Hnd; cbn [fold_left].
  - now rewrite app_nil_r.
  - cbn [map fst] in Hnd.
    pose proof (NoDup_remove_2 _ _ _ Hnd) as Hfresh.
    cbn [fst snd]. rewrite dict_set_fresh.
    + rewrite IH.
      * now rewrite <- app_assoc.
      * rewrite map_app. cbn [map fst]. now rewrite <- app_assoc.
    + intro Hin. apply Hfresh. apply in_or_app. now left.
Qed.

(** X20.  A row dict built from column names that are all different has
    one item for each column that has a value, in column order: it is the
    list of the columns paired with the values of the tuple. *)
Theorem row_dict_of_distinct_columns (columns : list string)
  (values : list V) :
  NoDup columns ->
  dict_of (combine columns values) = combine columns values.
Proof.
  intro Hnd. unfold dict_of. rewrite dict_fold_fresh; [reflexivity|].
  cbn [map app].
  revert values. induction Hnd as [|c columns Hc _ IH]; intros [|v values];
    cbn [combine map fst]; try constructor.
  - intro Hin. apply Hc.
    clear -Hin. revert values Hin.
    induction columns as [|c' columns IHc]; intros [|v' values] Hin;
      cbn [combine map fst] in Hin; try contradiction.
    destruct Hin as [<-|Hin]; [now left | right; eauto].
  - apply IH.
Qed.

(** X21.  When column names repeat, the row dict holds each name once, at
    the place of its first occurrence, with the value of its last
    occurrence, so it has fewer items than the tuple has values. *)
Theorem row_dict_merges_repeated_columns (pairs : list (string * V)) :
  NoDup (map fst (dict_of pairs)) /\
  (forall k, dict_get k (dict_of pairs) = dict_get k (rev pairs)) /\
  (List.length (dict_of pairs) <= List.length pairs)%nat /\
  (forall k (v : V) (rest : list (string * V)),
      In k (map fst rest) ->
      (List.length (dict_of ((k, v) :: rest)) < List.length ((k, v) :: rest))
        %nat).
Proof.
  unfold dict_of. repeat split.
  - apply dict_fold_nodup. constructor.
  - intro k. rewrite dict_fold_get. cbn [dict_get].
    now destruct (dict_get k (rev pairs)).
  - apply (dict_fold_length pairs []).
  - intros k v rest Hin.
    apply in_map_iff in Hin. destruct Hin as [[k' v'] [E Hin]].
    cbn [fst] in E. subst k'.
    apply in_split in Hin. destruct Hin as (a & b & ->).
    cbn [fold_left fst snd dict_set].
    rewrite fold_left_app. cbn [fold_left fst snd].
    pose proof (dict_fold_length a [(k, v)]) as Ha.
    set (da := fold_left _ a [(k, v)]) in *.
    assert (Hk : In k (map fst da)).
    { unfold da. clear. generalize (@nil (string * V)).
      intro pre. assert (Hin : In k (map fst ((k, v) :: pre))) by now left.
      revert Hin. generalize ((k, v) :: pre). clear.
      induction a as [|p a IH]; intros acc Hin; cbn [fold_left].
      - exact Hin.
      - apply IH. rewrite dict_set_keys.
        destruct (in_dec _ _ _); [exact Hin | apply in_or_app; now left]. }
    assert (Hsame : List.length (dict_set k v' da) = List.length da).
    { clear -Hk. induction da as [|[k0 v0] da IH]; [contradiction|].
      cbn [dict_set]. destruct (String.eqb_spec k0 k) as [->|Hne].
      - reflexivity.
      - cbn [List.length]. f_equal. apply IH.
        destruct Hk as [E|Hk]; [cbn in E; congruence | exact Hk]. }
    pose proof (dict_fold_length b (dict_set k v' da)) as Hb.
    rewrite Hsame in Hb. cbn [List.length] in *.
    rewrite length_app. cbn [List.length]. lia.
Qed.

End DictFacts.

Section ExecutorOnRedshift.

Context {World : Type} {Value : Type}.
Variable run_sql : json -> World -> result (Redshift.cursor Value) * World.
Variable utcnow : World -> string * World.
Variable format_value : Value -> string.
Variable str_lower : string -> string.

Local Notation "'run'" :=
  (_execute_single_test (Redshift.execute_query run_sql) utcnow format_value
     str_lower).

(** X22.  With the warehouse client as the query runner, a check for
    which the cursor fetched k > 0 tuples has status FAIL and defect count
    k, whatever its description is.  When the cursor fetched no tuple, or
    the statement left no result set at all, the check has status PASS and
    defect count 0 if its description is a text, and status ERROR and
    defect count -1 if it is not. *)
Theorem defect_count_is_fetched_tuples d model w q ds t w1 cur w2 :
  is_check_spec d = true ->
  getitem d "test_query" = Ok q ->
  getitem d "test_description" = Ok ds ->
  utcnow w = (t, w1) ->
  run_sql q w1 = (Ok cur, w2) ->
  let fetched :=
    match cur with
    | Redshift.NoResultSet => 0%nat
    | Redshift.ResultSet _ rows => List.length rows
    end in
  exists r,
    run d model w = (Ok r, w2) /\
    ((0 < fetched)%nat ->
     defect_count r = Z.of_nat fetched /\ status r = "FAIL") /\
    (fetched = 0%nat ->
     ((exists text, ds = JStr text) ->
      defect_count r = 0 /\ status r = "PASS") /\
     ((forall text, ds <> JStr text) ->
      defect_count r = -1 /\ status r = "ERROR")).
Proof.
  intros Hspec Hq Hds Hclock Hsql fetched.
  destruct (check_spec_field_values _ Hspec) as (n & c & ds0 & q0 & s & Hf).
  assert (ds0 = ds /\ q0 = q) as [-> ->].
  { destruct Hf as (_ & _ & H3 & H4 & _). split; congruence. }
  assert (Hrows : exists rows,
             Redshift.execute_query run_sql q w1 = (Ok rows, w2) /\
             List.length rows = fetched).
  { unfold Redshift.execute_query. rewrite Hsql.
    destruct cur as [|columns rows]; eexists; split; try reflexivity.
    apply length_map. }
  destruct Hrows as (rows & Hquery & Hlen).
  destruct rows as [|row rows].
  - destruct (not_text_cases ds) as [[text ->]|Hother].
    + eexists. split; [eapply run_no_rows_text; eauto|].
      cbn [defect_count status]. rewrite <- Hlen. cbn [List.length].
      split; [lia|]. intros _. split.
      * intros _. split; reflexivity.
      * intro Hno. now destruct (Hno text).
    + eexists. split; [eapply run_no_rows_other; eauto|].
      cbn [defect_count status]. rewrite <- Hlen. cbn [List.length].
      split; [lia|]. intros _. split.
      * intros [text ->]. now destruct (Hother text).
      * intros _. split; reflexivity.
  - eexists. split; [eapply run_rows; eauto; discriminate|].
    cbn [defect_count status]. rewrite <- Hlen.
    split; [intros _; split; reflexivity|].
    cbn [List.length]. discriminate.
Qed.

End ExecutorOnRedshift.

(** ** Listing the mart models *)

Lemma str_length_app a b :
  String.length (a ++ b) = (String.length a + String.length b)%nat.
Proof.
  induction a as [|c a IH]; simpl; [reflexivity | now rewrite IH].
Qed.

Lemma substring_whole s : substring 0 (String.length s) s = s.
Proof.
  induction s as [|c s IH]; simpl; [reflexivity | now rewrite IH].
Qed.

Lemma substring_app_left a b : substring 0 (String.length a) (a ++ b) = a.
Proof.
  induction a as [|c a IH]; simpl.
  - now destruct b.
  - now rewrite IH.
Qed.

Lemma substring_app_right a b :
  substring (String.length a) (String.length b) (a ++ b) = b.
Proof.
  induction a as [|c a IH]; simpl.
  - apply substring_whole.
  - exact IH.
Qed.

Lemma substring_split s :
  forall n, (n <= String.length s)%nat ->
  (substring 0 n s ++ substring n (String.length s - n) s)%string = s.
Proof.
  induction s as [|c s IH]; intros [|n] Hn; simpl in *.
  - reflexivity.
  - lia.
  - now rewrite substring_whole.
  - rewrite IH by lia. reflexivity.
Qed.

Lemma endswith_app name suffix :
  DBTParser.endswith (name ++ suffix) suffix = true.
Proof.
  unfold DBTParser.endswith. rewrite str_length_app.
  replace (String.length name + String.length suffix
           - String.length suffix)%nat
    with (String.length name) by lia.
  rewrite substring_app_right, String.eqb_refl.
  replace (String.length suffix <=? String.length name + String.length suffix)
    %nat with true by (symmetry; apply Nat.leb_le; lia).
  reflexivity.
Qed.

Lemma drop_last_app name suffix :
  DBTParser.drop_last (String.length suffix) (name ++ suffix) = name.
Proof.
  unfold DBTParser.drop_last. rewrite str_length_app.
  replace (String.length name + String.length suffix
           - String.length suffix)%nat
    with (String.length name) by lia.
  apply substring_app_left.
Qed.

Lemma endswith_split s suffix :
  DBTParser.endswith s suffix = true ->
  s = (DBTParser.drop_last (String.length suffix) s ++ suffix)%string.
Proof.
  unfold DBTParser.endswith, DBTParser.drop_last. intro H.
  apply andb_prop in H. destruct H as [Hlen Heq].
  apply Nat.leb_le in Hlen. apply String.eqb_eq in Heq.
  pose proof (substring_split s (String.length s - String.length suffix))
    as Hsplit.
  replace (String.length s - (String.length s - String.length suffix))%nat
    with (String.length suffix) in Hsplit by lia.
  rewrite Heq in Hsplit. symmetry. apply Hsplit. lia.
Qed.

Lemma insert_sorted_perm x l :
  Permutation (DBTParser.insert_sorted x l) (x :: l).
Proof.
  induction l as [|y l IH]; cbn [DBTParser.insert_sorted].
  - reflexivity.
  - destruct (String.leb x y); [reflexivity|].
    rewrite IH. apply perm_swap.
Qed.

Lemma sorted_perm l : Permutation (DBTParser.sorted l) l.
Proof.
  induction l as [|x l IH]; cbn.
  - reflexivity.
  - fold (DBTParser.sorted l). rewrite insert_sorted_perm. now constructor.
Qed.

Lemma insert_sorted_sorted x l :
  Sorted (fun a b => String.leb a b = true) l ->
  Sorted (fun a b => String.leb a b = true) (DBTParser.insert_sorted x l).
Proof.
  induction 1 as [|y l Hs IH Hhd]; cbn [DBTParser.insert_sorted].
  - repeat constructor.
  - destruct (String.leb x y) eqn:E.
    + repeat constructor; assumption.
    + assert (Hyx : String.leb y x = true).
      { destruct (String.leb_total x y) as [H|H]; [congruence | exact H]. }
      constructor; [exact IH|].
      destruct Hhd as [|z l Hyz]; cbn [DBTParser.insert_sorted].
      * now constructor.
      * destruct (String.leb x z); now constructor.
Qed.

Lemma sorted_sorted l :
  Sorted (fun a b => String.leb a b = true) (DBTParser.sorted l).
Proof.
  induction l as [|x l IH]; cbn.
  - constructor.
  - apply insert_sorted_sorted, IH.
Qed.

(** X23.  Of a models directory that exists, [list_mart_models] returns the
    names of the files that end in ".sql", each without that ending: a
    name is listed exactly when the file name.sql is in the directory,
    there is one name for each such file, and the names are in ascending
    order.  A missing directory is reported as FileNotFoundError. *)
Theorem list_mart_models_lists_sql_files models_path filenames listdir :
  (exists models,
      DBTParser.list_mart_models models_path true (inr filenames)
      = inr models /\
      Sorted (fun a b => String.leb a b = true) models /\
      (forall name, In name models <-> In (name ++ ".sql")%string filenames) /\
      List.length models
      = List.length
          (filter (fun f => DBTParser.endswith f ".sql") filenames))
  /\
  DBTParser.list_mart_models models_path false listdir
  = inl (DBTParser.FileNotFoundError
           ("Models path not found: " ++ models_path)).
Proof.
  split; [|reflexivity].
  eexists. split; [reflexivity|]. split; [apply sorted_sorted|]. split.
  - intro name.
    split.
    + intro Hin. apply (Permutation_in _ (sorted_perm _)) in Hin.
      apply in_map_iff in Hin. destruct Hin as (f & <- & Hf).
      apply filter_In in Hf. destruct Hf as [Hf Hend].
      apply endswith_split in Hend. cbn [String.length] in Hend.
      now rewrite <- Hend.
    + intro Hin.
      apply (Permutation_in _ (Permutation_sym (sorted_perm _))).
      apply in_map_iff. exists (name ++ ".sql")%string. split.
      * apply (drop_last_app name ".sql").
      * apply filter_In. split; [exact Hin | apply endswith_app].
  - rewrite (Permutation_length (sorted_perm _)). apply length_map.
Qed.

Lemma list_mart_models_lists_sql_files_witness :
  DBTParser.list_mart_models "models/marts" true
    (inr ["orders.sql"; "orders.yml"; "customers.sql"; "README.md"])
  = inr ["customers"; "orders"]
  /\
  (In "orders"%string ["customers"; "orders"]%string <->
   In "orders.sql"%string
     ["orders.sql"; "orders.yml"; "customers.sql"; "README.md"]%string).
Proof.
  destruct (list_mart_models_lists_sql_files "models/marts"
              ["orders.sql"; "orders.yml"; "customers.sql"; "README.md"]
              (inr []))
    as [(models & Hlist & _ & Hin & _) _].
  split; [reflexivity|].
  injection Hlist as <-. apply (Hin "orders"%string).
Defined.

(** ** The reports *)

(** X24.  The row that the summary report holds for a model carries the
    numbers of [get_summary] for the results of that model, under exactly
    the column names of the report, in the order of the columns. *)
Theorem summary_row_matches_get_summary model test_results :
  CSVWriter.summary_row model test_results
  = (let s := get_summary test_results in
     [ ("model_name", CSVWriter.CStr model);
       ("total_tests", CSVWriter.CInt (total_tests s));
       ("passed", CSVWriter.CInt (passed s));
       ("failed", CSVWriter.CInt (failed s));
       ("errors", CSVWriter.CInt (errors s));
       ("total_defects", CSVWriter.CInt (total_defects s));
       ("critical_failures", CSVWriter.CInt (critical_failures s));
       ("high_failures", CSVWriter.CInt (high_failures s)) ])
  /\
  map fst (CSVWriter.summary_row model test_results)
  = CSVWriter.summary_fieldnames.
Proof.
  split; reflexivity.
Qed.

Section ReportFacts.

Context {World : Type}.
Variable utcnow_compact : World -> string * World.
Variable path_join : string -> string -> string.
Variable write_csv :
  string -> list string -> list (list (string * CSVWriter.cell)) -> World ->
  result unit * World.
Variable output_dir : string.

(** X25.  The report of a model does not depend on the model name stored
    in the results: [write_report] does the same, whatever that field
    holds. *)
Theorem write_report_ignores_stored_model_name test_results model other w :
  CSVWriter.write_report utcnow_compact path_join write_csv output_dir
    (map (fun r =>
            mkCheckResult (test_name r) (test_category r)
              (test_description r) (test_query r) (defect_count r)
              (defect_examples r) (status r) (severity r) (notes r)
              (execution_timestamp r) other)
       test_results)
    model w
  = CSVWriter.write_report utcnow_compact path_join write_csv output_dir
      test_results model w.
Proof.
  unfold CSVWriter.write_report. rewrite map_map. reflexivity.
Qed.

End ReportFacts.

(** ** The driver *)

Section MainFacts.

Context {World : Type}.
Variable init_clients : World -> result unit * World.
Variable connect : World -> result unit * World.
Variable close : World -> result unit * World.
Variable test_connection : World -> bool * World.
Variable audit_model : string -> World -> result (list CheckResult) * World.

Lemma audit_loop_keys_from models :
  forall acc w,
    NoDup (map fst acc) ->
    NoDup (map fst (fst (audit_loop audit_model models acc w))) /\
    incl (map fst (fst (audit_loop audit_model models acc w)))
      (map fst acc ++ models).
Proof.
  induction models as [|m models IH]; intros acc w Hnd; cbn [audit_loop].
  - split; [exact Hnd|]. cbn [fst]. rewrite app_nil_r. apply incl_refl.
  - destruct (audit_model m w) as [[rs|e] w1].
    + destruct (IH (dict_set m rs acc) w1 (dict_set_nodup m rs acc Hnd))
        as [Hnd' Hincl].
      split; [exact Hnd'|].
      intros k Hk. apply Hincl in Hk.
      apply in_app_or in Hk. apply in_or_app.
      destruct Hk as [Hk|Hk]; [|right; now right].
      rewrite dict_set_keys in Hk.
      destruct (in_dec string_dec m (map fst acc)); [now left|].
      apply in_app_or in Hk.
      destruct Hk as [Hk|[<-|[]]]; [now left | right; now left].
    + destruct (IH acc w1 Hnd) as [Hnd' Hincl].
      split; [exact Hnd'|].
      intros k Hk. apply Hincl in Hk.
      apply in_app_or in Hk. apply in_or_app.
      destruct Hk as [Hk|Hk]; [now left | right; now right].
Qed.

Lemma audit_loop_all_ok models :
  (forall m w, exists rs w', audit_model m w = (Ok rs, w')) ->
  forall acc w,
    NoDup (map fst acc ++ models) ->
    map fst (fst (audit_loop audit_model models acc w))
    = map fst acc ++ models.
Proof.
  intro Hok. induction models as [|m models IH]; intros acc w Hnd;
    cbn [audit_loop].
  - cbn [fst]. now rewrite app_nil_r.
  - destruct (Hok m w) as (rs & w1 & ->).
    pose proof (NoDup_remove_2 _ _ _ Hnd) as Hfresh.
    assert (Hset : dict_set m rs acc = acc ++ [(m, rs)]).
    { apply dict_set_fresh. intro Hin. apply Hfresh.
      apply in_or_app. now left. }
    rewrite Hset, IH.
    + rewrite map_app. cbn [map fst]. now rewrite <- app_assoc.
    + rewrite map_app. cbn [map fst]. now rewrite <- app_assoc.
Qed.

Lemma audit_loop_at_most_distinct models w :
  (List.length (fst (audit_loop audit_model models [] w))
   <= List.length (nodup string_dec models))%nat.
Proof.
  destruct (audit_loop_keys_from models [] w (NoDup_nil _)) as [Hnd Hincl].
  cbn [map app] in Hincl.
  rewrite <- (length_map fst).
  apply NoDup_incl_length; [exact Hnd|].
  intros k Hk. apply nodup_In, Hincl, Hk.
Qed.

(** X26.  Whatever the audits do, the loop of [main] ends with a table in
    which every model name occurs once and is one of the names asked for;
    the table has at most as many entries as there are different names
    among them. *)
Theorem audit_loop_keys models w :
  let all_results := fst (audit_loop audit_model models [] w) in
  NoDup (map fst all_results) /\
  incl (map fst all_results) models /\
  (List.length all_results <= List.length (nodup string_dec models))%nat.
Proof.
  destruct (audit_loop_keys_from models [] w (NoDup_nil _)) as [Hnd Hincl].
  cbn [map app] in Hincl.
  split; [exact Hnd|]. split; [exact Hincl|].
  apply audit_loop_at_most_distinct.
Qed.

(** X27.  When every audit succeeds and the names asked for are all
    different, the table holds the models in the order in which they were
    asked for. *)
Theorem audit_loop_keeps_order models w :
  (forall m w0, exists rs w', audit_model m w0 = (Ok rs, w')) ->
  NoDup models ->
  map fst (fst (audit_loop audit_model models [] w)) = models.
Proof.
  intros Hok Hnd. now rewrite (audit_loop_all_ok models Hok [] w).
Qed.

(** X28.  [main] writes the summary report only when at least two models
    with different names were audited: called with names that are all the
    same, it ends in the same way whatever writing a summary would do. *)
Theorem main_summary_needs_two_models write_summary1 write_summary2
  name rest w :
  (List.length (nodup string_dec (name :: rest)) <= 1)%nat ->
  main init_clients connect close test_connection audit_model
    write_summary1 (Some (name :: rest)) w
  = main init_clients connect close test_connection audit_model
      write_summary2 (Some (name :: rest)) w.
Proof.
  intro Hfew. unfold main.
  destruct (init_clients w) as [[[]|e] w1]; [|reflexivity].
  destruct (connect w1) as [[[]|e] w2]; [|reflexivity].
  destruct (test_connection w2) as [connected w3].
  destruct connected; cbn [negb]; [|reflexivity].
  pose proof (audit_loop_at_most_distinct (name :: rest) w3) as Hlen.
  destruct (audit_loop audit_model (name :: rest) [] w3)
    as [all_results w4].
  cbn [fst] in Hlen.
  destruct (close w4) as [[[]|e] w5]; [|reflexivity].
  replace (1 <? Z.of_nat (List.length all_results)) with false
    by (symmetry; apply Z.ltb_ge; lia).
  reflexivity.
Qed.

End MainFacts.

(** ** The further properties on concrete inputs *)

Lemma row_dict_of_distinct_columns_witness :
  dict_of (combine ["order_id"; "total"]%string [10; -1])
  = [("order_id"%string, 10); ("total"%string, -1)].
Proof.
  apply (row_dict_of_distinct_columns ["order_id"; "total"]%string [10; -1]).
  repeat constructor; cbn; intuition discriminate.
Defined.

Lemma row_dict_merges_repeated_columns_witness :
  dict_of (combine ["id"; "id"; "total"]%string [1; 7; 30])
  = [("id"%string, 7); ("total"%string, 30)]
  /\
  (List.length (dict_of (combine ["id"; "id"; "total"]%string [1; 7; 30]))
   < 3)%nat.
Proof.
  split; [reflexivity|].
  apply (proj2 (proj2 (proj2 (row_dict_merges_repeated_columns
                                (@nil (string * Z)))))
           "id"%string 1 [("id"%string, 7); ("total"%string, 30)]).
  cbn. tauto.
Defined.

Lemma defect_count_is_fetched_tuples_witness :
  (exists r,
      Demo.run_single Demo.maintenance_check 0%nat = (Ok r, 1%nat) /\
      defect_count r = 0 /\ status r = "PASS")
  /\
  (exists r,
      Demo.run_single Demo.joined_check 0%nat = (Ok r, 1%nat) /\
      defect_count r = 2 /\ status r = "FAIL").
Proof.
  split.
  - destruct (defect_count_is_fetched_tuples Demo.run_sql Sample.utcnow
                str_of_int Sample.lower_text Demo.maintenance_check "orders"
                0%nat (JStr "analyze orders") (JStr "Statistics are fresh")
                "2024-05-01 12:00:00 UTC" 0%nat Redshift.NoResultSet 1%nat
                eq_refl eq_refl eq_refl eq_refl eq_refl)
      as (r & Hrun & _ & Hnone).
    exists r. split; [exact Hrun|].
    apply (proj1 (Hnone eq_refl)). now exists "Statistics are fresh"%string.
  - destruct (defect_count_is_fetched_tuples Demo.run_sql Sample.utcnow
                str_of_int Sample.lower_text Demo.joined_check "orders"
                0%nat (JStr "select joined")
                (JStr "Orders join their customers")
                "2024-05-01 12:00:00 UTC" 0%nat
                (Redshift.ResultSet ["id"; "id"; "total"]%string
                   [[1; 7; 30]; [2; 8; 40]])
                1%nat eq_refl eq_refl eq_refl eq_refl eq_refl)
      as (r & Hrun & Hsome & _).
    exists r. split; [exact Hrun|].
    apply Hsome. cbn. lia.
Defined.

Lemma audit_loop_keeps_order_witness :
  map fst (fst (audit_loop Demo.quiet_audit ["customers"; "orders"] [] 0%nat))
  = ["customers"; "orders"]%string.
Proof.
  apply (audit_loop_keeps_order Demo.quiet_audit
           ["customers"; "orders"]%string 0%nat).
  - intros m w0. eexists. eexists. reflexivity.
  - repeat constructor; cbn; intuition discriminate.
Defined.

Lemma main_summary_needs_two_models_witness :
  main Demo.succeed Demo.succeed Demo.succeed Demo.test_connection
    Demo.audit_model Demo.write_summary (Some ["orders"; "orders"]%string)
    0%nat
  = main Demo.succeed Demo.succeed Demo.succeed Demo.test_connection
      Demo.audit_model Demo.refuse_summary
      (Some ["orders"; "orders"]%string) 0%nat.
Proof.
  apply (main_summary_needs_two_models Demo.succeed Demo.succeed Demo.succeed
           Demo.test_connection Demo.audit_model
           Demo.write_summary Demo.refuse_summary
           "orders"%string ["orders"%string] 0%nat).
  vm_compute. lia.
Defined.

Lemma validation_looks_at_keys_only_witness :
  passes_validation
    (JObj [ ("test_name", JNull); ("test_category", JNull);
            ("test_description", JNull); ("test_query", JNull);
            ("severity", JNull); ("owner", JStr "analytics") ])
  = true.
Proof.
  apply (proj2 (proj1 (validation_looks_at_keys_only
                         [ ("test_name", JNull); ("test_category", JNull);
                           ("test_description", JNull); ("test_query", JNull);
                           ("severity", JNull);
                           ("owner", JStr "analytics") ]))).
  intros field Hin. cbn in Hin |- *. tauto.
Defined.


(** ** Validation of elements that are not objects *)

Lemma all_fields_in_container fields t :
  is_scalar t = false -> exists b, all_fields_in fields t = Ok b.
Proof.
  intro Ht. induction fields as [|field rest IH]; cbn [all_fields_in].
  - now exists true.
  - destruct t; try discriminate; cbn [contains bind].
    + destruct (str_contains field s); [exact IH | now exists false].
    + destruct (existsb _ elems); [exact IH | now exists false].
    + destruct (assoc field items); [exact IH | now exists false].
Qed.

Lemma validate_tests_containers tests :
  Forall (fun t => is_scalar t = false) tests ->
  forall acc,
    validate_tests tests acc = Ok (acc ++ filter passes_validation tests).
Proof.
  induction 1 as [|t rest Ht _ IH]; intro acc.
  - simpl. now rewrite app_nil_r.
  - rewrite validate_tests_cons. cbn [filter]. unfold passes_validation.
    destruct (all_fields_in_container required_fields t Ht) as [b ->].
    cbn [bind]. destruct b.
    + rewrite IH, <- app_assoc. reflexivity.
    + apply IH.
Qed.

Lemma passes_validation_text s :
  (forall field, In field required_fields -> str_contains field s = true) ->
  passes_validation (JStr s) = true.
Proof.
  intro Hin. unfold passes_validation. cbn.
  rewrite !Hin by (cbn; tauto). reflexivity.
Qed.

Lemma passes_validation_list elems :
  (forall field, In field required_fields -> In (JStr field) elems) ->
  passes_validation (JArr elems) = true.
Proof.
  intro Hin.
  assert (Hex : forall field, In field required_fields ->
                existsb (fun x => eq_str x field) elems = true).
  { intros field Hf. apply existsb_exists. exists (JStr field).
    split; [now apply Hin | apply String.eqb_refl]. }
  unfold passes_validation. cbn.
  rewrite !Hex by (cbn; tauto). reflexivity.
Qed.

Section ParseResponseNonObjects.

Variable json_loads : string -> result (list json).

(** C10.  For a response whose bracketed part decodes to an array without
    null, boolean or number, the parser returns the elements that pass the
    membership tests, in the order of the array.  That list is not the
    list of the elements with the five required fields: a string in which
    the five names occur, and a list that holds the five names, pass the
    tests and are returned among the checks, although neither is an object
    with the five fields. *)
Theorem parse_response_keeps_non_objects text i j tests :
  first_index "["%char text i ->
  last_index "]"%char text j ->
  json_loads (slice text (Z.of_nat i) (Z.of_nat j + 1)) = Ok tests ->
  Forall (fun t => is_scalar t = false) tests ->
  _parse_response json_loads text = Ok (filter passes_validation tests) /\
  subsequence (filter passes_validation tests) tests /\
  (forall s,
      In (JStr s) tests ->
      (forall field, In field required_fields ->
                     str_contains field s = true) ->
      In (JStr s) (filter passes_validation tests) /\
      is_check_spec (JStr s) = false) /\
  (forall elems,
      In (JArr elems) tests ->
      (forall field, In field required_fields -> In (JStr field) elems) ->
      In (JArr elems) (filter passes_validation tests) /\
      is_check_spec (JArr elems) = false).
Proof.
  intros Hi Hj Hdecode Hcont.
  split; [|split; [apply subsequence_filter|split]].
  - rewrite (parse_response_brackets _ _ _ _ Hi Hj), Hdecode. cbn [bind].
    now rewrite (validate_tests_containers _ Hcont).
  - intros s Hin Hnames. split; [|reflexivity].
    apply filter_In. split; [exact Hin | now apply passes_validation_text].
  - intros elems Hin Hnames. split; [|reflexivity].
    apply filter_In. split; [exact Hin | now apply passes_validation_list].
Qed.

End ParseResponseNonObjects.

Lemma parse_response_keeps_non_objects_witness :
  _parse_response Demo.json_loads "Sure: [names, clean, list of names] ok"
  = Ok [Demo.names_text; Sample.clean_check; Demo.names_list]
  /\
  filter is_check_spec [Demo.names_text; Sample.clean_check; Demo.names_list]
  = [Sample.clean_check]
  /\
  is_check_spec Demo.names_text = false
  /\
  is_check_spec Demo.names_list = false.
Proof.
  destruct (parse_response_keeps_non_objects Demo.json_loads
              "Sure: [names, clean, list of names] ok" 6%nat 34%nat
              [Demo.names_text; Sample.clean_check; Demo.names_list])
    as (Hparse & _ & Htext & Hlist).
  - apply first_index_of_find. reflexivity.
  - apply last_index_of_rfind. reflexivity.
  - reflexivity.
  - repeat constructor.
  - split; [exact Hparse|]. split; [reflexivity|]. split.
    + apply (Htext
               "test_name test_category test_description test_query severity"
               %string).
      * cbn. tauto.
      * intros field Hf. cbn in Hf.
        repeat (destruct Hf as [<-|Hf]; [reflexivity|]). contradiction.
    + apply (Hlist [ JStr "test_name"; JStr "test_category";
                     JStr "test_description"; JStr "test_query";
                     JStr "severity" ]).
      * cbn. tauto.
      * intros field Hf. cbn in Hf |- *.
        repeat (destruct Hf as [<-|Hf]; [tauto|]). contradiction.
Defined.
